(** * Nanopublication utilities: a shallow embedding of [nanopub_utils.py]

    The development follows the layout of the Python module: the text
    primitives of [str] the module relies on, the escaping and formatting
    helpers, the pubinfo graph builder, the validation helper and the
    [NanopubGenerator] class.  Python strings are modelled as [string]
    (UTF-8 bytes): every character the module tests or inserts is ASCII,
    and no byte of a multi-byte UTF-8 sequence is an ASCII byte, so the
    byte-wise model agrees with Python's code-point-wise operations. *)

From Stdlib Require Import Ascii String List ZArith Lia Bool OrdersEx.
From stdpp Require Import gmap strings list sorting.

Set Warnings "-register-all".

(** String concatenation unfolds on a known first argument. *)
#[local] Arguments String.append !_ _ / : simpl nomatch.

(** ** Characters the module names *)

Definition LF : ascii := "010"%char.
Definition CR : ascii := "013"%char.
Definition DQUOTE : ascii := "034"%char.
Definition BACKSLASH : ascii := "092"%char.

Definition chr (c : ascii) : string := String c EmptyString.

Definition nl : string := chr LF.
Definition dq : string := chr DQUOTE.

(** ** The methods of Python's [str] used by the module *)

Module Str.

(** [s.startswith(p)] *)
Fixpoint startswith (s p : string) : bool :=
  match p with
  | EmptyString => true
  | String a p' =>
      match s with
      | EmptyString => false
      | String b s' => Ascii.eqb a b && startswith s' p'
      end
  end.

(** [s.endswith(suf)]: some tail of [s] is [suf]. *)
Fixpoint endswith (s suf : string) : bool :=
  if String.eqb s suf then true
  else match s with
       | EmptyString => false
       | String _ s' => endswith s' suf
       end.

(** [c in chars] for a one-character [c]. *)
Fixpoint mem (c : ascii) (chars : string) : bool :=
  match chars with
  | EmptyString => false
  | String d chars' => Ascii.eqb c d || mem c chars'
  end.

(** [s.rstrip(chars)]: drops the longest tail made of characters of
    [chars]. *)
Fixpoint rstrip (s chars : string) : string :=
  match s with
  | EmptyString => EmptyString
  | String c s' =>
      match rstrip s' chars with
      | EmptyString => if mem c chars then EmptyString else chr c
      | String d r => String c (String d r)
      end
  end.

(** [s.replace(old, new)] for a one-character [old], the only form the
    module uses. *)
Fixpoint replace (s : string) (old : ascii) (new : string) : string :=
  match s with
  | EmptyString => EmptyString
  | String c s' =>
      (if Ascii.eqb c old then new else chr c) +:+ replace s' old new
  end.

(** [sep.join(parts)] *)
Definition join (sep : string) (parts : list string) : string :=
  String.concat sep parts.

(** [s[:n]] *)
Definition take (n : nat) (s : string) : string := String.substring 0 n s.

End Str.

(** ** Python values

    The configuration is a [Dict[str, Any]] read from JSON, so what
    [NanopubGenerator.generate] reads from it is dynamically typed.  The
    module looks at such a value in four ways only: its truth value, its
    [str()], and for [is_part_of] the dictionary operations [.get] and
    [[...]]. A float is kept abstract: only whether it is zero matters. *)

Inductive pyval : Type :=
  | PNone
  | PBool (b : bool)
  | PInt (n : Z)
  | PFloat (nonzero : bool)
  | PStr (s : string)
  | PList (l : list pyval)
  | PDict (d : gmap string pyval).

(** Python's truth value testing, [bool(v)]. *)
Definition truthy (v : pyval) : bool :=
  match v with
  | PNone => false
  | PBool b => b
  | PInt n => negb (n =? 0)%Z
  | PFloat nonzero => nonzero
  | PStr s => negb (String.eqb s EmptyString)
  | PList l => match l with [] => false | _ :: _ => true end
  | PDict d => negb (bool_decide (d = ∅))
  end.

(** Truth value of an [Optional[str]] argument. *)
Definition truthy_str (o : option string) : bool :=
  match o with
  | Some s => negb (String.eqb s EmptyString)
  | None => false
  end.

(** Truth value of an optional list or dict argument given as a list. *)
Definition truthy_list {A} (o : option (list A)) : bool :=
  match o with
  | Some (_ :: _) => true
  | _ => false
  end.

(** The text of an [Optional[str]] argument once it is known to be truthy. *)
Definition text_of (o : option string) : string := default EmptyString o.

(** ** Exceptions and results *)

Inductive exn : Type :=
  | KeyError (key : string)
  | AttributeError (attr : string)
  | ValueError (msg : string)
  | NotImplementedError
  | Raised (what : string).

Inductive result (A : Type) : Type :=
  | Ok (a : A)
  | Raise (e : exn).
Arguments Ok {A} a.
Arguments Raise {A} e.

Definition rbind {A B} (r : result A) (k : A -> result B) : result B :=
  match r with
  | Ok a => k a
  | Raise e => Raise e
  end.

Notation "x <- r ;; k" := (rbind r (fun x => k))
  (at level 100, r at next level, right associativity).

(** ** Escaping and formatting of strings *)

(** [escape_literal]: the four replacements, backslash first. *)
Definition escape_literal (text : string) : string :=
  Str.replace
    (Str.replace
       (Str.replace
          (Str.replace text BACKSLASH (chr BACKSLASH +:+ chr BACKSLASH))
          DQUOTE (chr BACKSLASH +:+ dq))
       LF (chr BACKSLASH +:+ "n"))
    CR (chr BACKSLASH +:+ "r").

(** [make_uri(value, prefix=None)] *)
Definition make_uri (value : string) (prefix : option string) : string :=
  if Str.startswith value "http://" || Str.startswith value "https://" then
    "<" +:+ value +:+ ">"
  else if truthy_str prefix then
    text_of prefix +:+ ":" +:+ value
  else
    "<" +:+ value +:+ ">".

(** Python's [str(v)]: a [str] is its own text; the text of any other
    object is left to the interpreter, which the class [PyRepr] stands
    for.  No property below depends on what that text is. *)
Class PyRepr := py_repr : pyval -> string.

Definition py_str `{PyRepr} (v : pyval) : string :=
  match v with
  | PStr s => s
  | _ => py_repr v
  end.

(** [make_literal(value, datatype=None, lang=None)] *)
Definition make_literal `{PyRepr} (value : pyval) (datatype lang : option string)
  : string :=
  let escaped := escape_literal (py_str value) in
  if truthy_str datatype then
    dq +:+ escaped +:+ dq +:+ "^^" +:+ text_of datatype
  else if truthy_str lang then
    dq +:+ escaped +:+ dq +:+ "@" +:+ text_of lang
  else
    dq +:+ escaped +:+ dq.

(** ** Dictionary access on a dynamically typed value *)

(** [v.get(key)] *)
Definition py_get (v : pyval) (key : string) : result pyval :=
  match v with
  | PDict d => Ok (default PNone (d !! key))
  | _ => Raise (AttributeError "get")
  end.

(** [v[key]] with a string key *)
Definition py_item (v : pyval) (key : string) : result pyval :=
  match v with
  | PDict d =>
      match d !! key with
      | Some x => Ok x
      | None => Raise (KeyError key)
      end
  | _ => Raise (Raised "TypeError")
  end.

(** The truth value of [v and v.get(key)]; [and] does not evaluate its
    right operand when the left one is falsy. *)
Definition py_and_get (v : pyval) (key : string) : result bool :=
  if truthy v then x <- py_get v key ;; Ok (truthy x) else Ok false.

(** ** The pubinfo graph *)

(** The arguments of [generate_pubinfo_graph], under their Python names.
    Arguments that [NanopubGenerator.generate] fills from the
    configuration are dynamically typed; the others follow their
    annotations, [None] being the default of every optional one. *)
Record PubinfoArgs : Type := {
  nanopub_uri : string;
  sub_prefix : string;
  creator_orcid : pyval;
  creator_name : pyval;
  label : pyval;
  template_uri : pyval;
  provenance_template_uri : option string;
  pubinfo_template_uris : option (list string);
  nanopub_types : option (list string);
  introduces_uri : option string;
  wikidata_labels : option (list (string * string));
  supersedes : pyval;
  is_part_of : pyval
}.

(** [f"<{t}>"] *)
Definition angle (t : string) : string := "<" +:+ t +:+ ">".

(** [lines[-1]] and [lines[-1] = x]; the list is never empty where the
    builder uses them, since it starts with the graph's opening line. *)
Definition last_line (lines : list string) : string :=
  List.last lines EmptyString.

Definition set_last_line (lines : list string) (x : string) : list string :=
  List.removelast lines ++ [x].

Section PubinfoGraph.
Context `{PyRepr}.

(** The current time as [get_timestamp] formats it; the clock is an
    input of the builder. *)
Variable timestamp : string.

Variable a : PubinfoArgs.

(** One [nt:hasLabelFromApi] triple. *)
Definition label_triple (uri : string) (lbl : pyval) : string :=
  "  <" +:+ uri +:+ "> nt:hasLabelFromApi "
    +:+ make_literal lbl None None +:+ " .".

(** Wikidata label lookups, in the dictionary's insertion order. *)
Definition add_wikidata_lookups (lines : list string) : list string :=
  if truthy_list (wikidata_labels a) then
    (lines
       ++ map (fun '(wd_uri, wd_label) => label_triple wd_uri (PStr wd_label))
            (default [] (wikidata_labels a)))
      ++ [EmptyString]
  else lines.

(** The label of the [is_part_of] reference. *)
Definition add_is_part_of_label (lines : list string) : result (list string) :=
  has_label <- py_and_get (is_part_of a) "label" ;;
  if (has_label : bool) then
    uri <- py_item (is_part_of a) "uri" ;;
    lbl <- py_item (is_part_of a) "label" ;;
    Ok (lines ++ [label_triple (py_str uri) lbl; EmptyString])
  else Ok lines.

(** Creator info. *)
Definition creator_line : string :=
  "  orcid:" +:+ py_str (creator_orcid a) +:+ " foaf:name "
    +:+ make_literal (creator_name a) None None +:+ " .".

Definition add_creator_info (lines : list string) : list string :=
  lines ++ [creator_line; EmptyString].

(** Main nanopub metadata: the predicate lines on [this:]. *)
Definition created_line : string :=
  "  this: dct:created " +:+ dq +:+ timestamp +:+ dq +:+ "^^xsd:dateTime ;".

Definition creator_ref_line : string :=
  "    dct:creator orcid:" +:+ py_str (creator_orcid a) +:+ " ;".

Definition license_line : string :=
  "    dct:license <https://creativecommons.org/licenses/by/4.0/> ;".

Definition types_line : string :=
  "    npx:hasNanopubType "
    +:+ Str.join ", " (map angle (default [] (nanopub_types a))) +:+ " ;".

Definition introduces_line : string :=
  "    npx:introduces " +:+ angle (text_of (introduces_uri a)) +:+ " ;".

Definition supersedes_line : string :=
  "    npx:supersedes " +:+ angle (py_str (supersedes a)) +:+ " ;".

Definition is_part_of_line (uri : pyval) : string :=
  "    <http://purl.org/dc/terms/isPartOf> " +:+ angle (py_str uri) +:+ " ;".

Definition created_at_line : string :=
  "    npx:wasCreatedAt <https://nanodash.knowledgepixels.com/> ;".

(** The label line without its terminator. *)
Definition label_body : string :=
  "    rdfs:label " +:+ make_literal (label a) None None.

Definition add_metadata (lines : list string) : result (list string) :=
  let lines := lines ++ [created_line; creator_ref_line; license_line] in
  let lines :=
    if truthy_list (nanopub_types a) then lines ++ [types_line] else lines in
  let lines :=
    if truthy_str (introduces_uri a) then lines ++ [introduces_line]
    else lines in
  let lines :=
    if truthy (supersedes a) then lines ++ [supersedes_line] else lines in
  has_uri <- py_and_get (is_part_of a) "uri" ;;
  lines <- (if (has_uri : bool) then
              uri <- py_item (is_part_of a) "uri" ;;
              Ok (lines ++ [is_part_of_line uri])
            else Ok lines) ;;
  Ok (lines ++ [created_at_line; label_body +:+ " ;"]).

(** Template references. *)
Definition provenance_template_body : string :=
  "    nt:wasCreatedFromProvenanceTemplate "
    +:+ angle (text_of (provenance_template_uri a)).

Definition pubinfo_template_body : string :=
  "    nt:wasCreatedFromPubinfoTemplate "
    +:+ Str.join ("," +:+ nl +:+ "      ")
          (map angle (default [] (pubinfo_template_uris a))).

Definition add_template_refs (lines : list string) : list string :=
  let lines :=
    if truthy_str (provenance_template_uri a) then
      lines ++ [provenance_template_body +:+ " ;"]
    else lines in
  if truthy_list (pubinfo_template_uris a) then
    lines ++ [pubinfo_template_body +:+ " ;"]
  else lines.

Definition template_line : string :=
  "    nt:wasCreatedFromTemplate " +:+ angle (py_str (template_uri a)) +:+ " .".

(** The end of the statement: with a custom template the last line keeps
    a semicolon and the template triple closes the statement, otherwise
    the last line's semicolon becomes the period. *)
Definition close_statement (lines : list string) : list string :=
  if truthy (template_uri a) then
    let lines := set_last_line lines (Str.rstrip (last_line lines) " ;") in
    let lines :=
      if negb (Str.endswith (last_line lines) " .") then
        set_last_line lines (last_line lines +:+ " ;")
      else lines in
    lines ++ [template_line]
  else
    set_last_line lines (Str.rstrip (last_line lines) " ;" +:+ " .").

(** The list [lines] as it stands when the builder joins it. *)
Definition pubinfo_lines : result (list string) :=
  let lines := [sub_prefix a +:+ ":pubinfo {"] in
  let lines := add_wikidata_lookups lines in
  lines <- add_is_part_of_label lines ;;
  let lines := add_creator_info lines in
  lines <- add_metadata lines ;;
  let lines := add_template_refs lines in
  let lines := close_statement lines in
  Ok (lines ++ ["}"]).

(** [generate_pubinfo_graph(...)] *)
Definition generate_pubinfo_graph : result string :=
  lines <- pubinfo_lines ;;
  Ok (Str.join nl lines).

End PubinfoGraph.

(** [generate_provenance_graph(sub_prefix, creator_orcid)] *)
Definition generate_provenance_graph `{PyRepr} (sub_prefix : string)
    (creator_orcid : pyval) : string :=
  sub_prefix +:+ ":provenance {" +:+ nl
    +:+ "  " +:+ sub_prefix +:+ ":assertion prov:wasAttributedTo orcid:"
    +:+ py_str creator_orcid +:+ " ." +:+ nl
    +:+ "}".

(** [generate_head_graph(sub_prefix)] *)
Definition generate_head_graph (sub_prefix : string) : string :=
  sub_prefix +:+ ":Head {" +:+ nl
    +:+ "  this: a np:Nanopublication ;" +:+ nl
    +:+ "    np:hasAssertion " +:+ sub_prefix +:+ ":assertion ;" +:+ nl
    +:+ "    np:hasProvenance " +:+ sub_prefix +:+ ":provenance ;" +:+ nl
    +:+ "    np:hasPublicationInfo " +:+ sub_prefix +:+ ":pubinfo ." +:+ nl
    +:+ "}".

(** [generate_nanopub_uri()]: the random UUID text and the SHA-256 hex
    digest come from the runtime; they are inputs here. *)
Definition generate_nanopub_uri (sha256_hexdigest : string -> string)
    (uuid4 : string) : string :=
  let unique_id := Str.take 43 (sha256_hexdigest uuid4) in
  "https://w3id.org/np/RA" +:+ unique_id.

(** [validate_required_fields(config, required)] *)
Definition is_missing (config : gmap string pyval) (f : string) : bool :=
  match config !! f with
  | None => true
  | Some v => negb (truthy v)
  end.

Definition validate_required_fields (config : gmap string pyval)
    (required : list string) : result unit :=
  let missing := List.filter (is_missing config) required in
  match missing with
  | _ :: _ =>
      Raise (ValueError ("Missing required fields: " +:+ Str.join ", " missing))
  | [] => Ok tt
  end.

(** Standard prefixes used in nanopublications. *)
Definition PREFIXES : gmap string string :=
  list_to_map
    [ ("np", "http://www.nanopub.org/nschema#");
      ("dct", "http://purl.org/dc/terms/");
      ("rdf", "http://www.w3.org/1999/02/22-rdf-syntax-ns#");
      ("rdfs", "http://www.w3.org/2000/01/rdf-schema#");
      ("xsd", "http://www.w3.org/2001/XMLSchema#");
      ("prov", "http://www.w3.org/ns/prov#");
      ("foaf", "http://xmlns.com/foaf/0.1/");
      ("orcid", "https://orcid.org/");
      ("npx", "http://purl.org/nanopub/x/");
      ("nt", "https://w3id.org/np/o/ntemplate/");
      ("cito", "http://purl.org/spar/cito/");
      ("fabio", "http://purl.org/spar/fabio/");
      ("schema", "https://schema.org/");
      ("skos", "http://www.w3.org/2004/02/skos/core#");
      ("hycl", "http://purl.org/petapico/o/hycl#");
      ("aida", "http://purl.org/aida/");
      ("wd", "http://www.wikidata.org/entity/");
      ("wdt", "http://www.wikidata.org/prop/direct/");
      ("dcmitype", "http://purl.org/dc/dcmitype/");
      ("fdof", "https://w3id.org/fdof/ontology#");
      ("fair", "https://w3id.org/fair/fip/terms/");
      ("dcat", "https://www.w3.org/ns/dcat#");
      ("geo", "http://www.opengis.net/ont/geosparql#");
      ("pico", "http://data.cochrane.org/ontologies/pico/") ].

(** The order [sorted] puts strings in. *)
Definition str_le : relation string := fun s1 s2 => String.leb s1 s2 = true.

#[global] Instance str_le_dec : RelDecision str_le.
Proof. intros s1 s2. unfold str_le. apply _. Defined.

(** [d[k] = v] on a dictionary kept in insertion order: a known key keeps
    its place and takes the new value, a new key goes last. *)
Fixpoint dict_set (d : list (string * string)) (k v : string)
  : list (string * string) :=
  match d with
  | [] => [(k, v)]
  | (k', v') :: d' =>
      if String.eqb k' k then (k', v) :: d' else (k', v') :: dict_set d' k v
  end.

(** The order [sorted] puts (key, value) pairs in: by key, then by
    value. *)
Definition pair_leb (e1 e2 : string * string) : bool :=
  String.ltb (fst e1) (fst e2)
  || (String.eqb (fst e1) (fst e2) && String.leb (snd e1) (snd e2)).

Definition pair_le : relation (string * string) :=
  fun e1 e2 => pair_leb e1 e2 = true.

#[global] Instance pair_le_dec : RelDecision pair_le.
Proof. intros e1 e2. unfold pair_le. apply _. Defined.

(** [format_prefixes(prefixes)]: the list [lines], then its join.  The
    argument is a dictionary; its insertion order plays no role since the
    items are sorted. *)
Definition format_prefix_lines (prefixes : gmap string string) : list string :=
  map (fun '(prefix, uri) => "@prefix " +:+ prefix +:+ ": <" +:+ uri +:+ "> .")
    (merge_sort pair_le (map_to_list prefixes)).

Definition format_prefixes (prefixes : gmap string string) : string :=
  Str.join nl (format_prefix_lines prefixes).

(** ** Mutable objects of the configuration

    [generate] reads values from the configuration before it calls the
    assertion producer and uses them afterwards.  A list or a record is a
    mutable object: what [generate] holds is a reference to it, and it sees
    the content the object has when it is used, also when the producer
    changed the object in place.  An entry of the configuration is
    therefore either an immutable value or a reference into a store that
    gives every mutable object its present content. *)

Inductive scalar : Type :=
  | SNone
  | SBool (b : bool)
  | SInt (n : Z)
  | SFloat (nonzero : bool)
  | SStr (s : string).

Definition scalar_value (v : scalar) : pyval :=
  match v with
  | SNone => PNone
  | SBool b => PBool b
  | SInt n => PInt n
  | SFloat nonzero => PFloat nonzero
  | SStr s => PStr s
  end.

Definition loc : Type := nat.

Inductive cell : Type :=
  | Imm (v : scalar)
  | Ref (l : loc).

(** The content of every mutable object. *)
Definition store : Type := loc -> pyval.

(** The value an entry stands for at present. *)
Definition deref (h : store) (c : cell) : pyval :=
  match c with
  | Imm v => scalar_value v
  | Ref l => h l
  end.

(** ** The class [NanopubGenerator] *)

Module NanopubGenerator.

(** Default template URIs used by Nanodash. *)
Definition PROVENANCE_TEMPLATE : string :=
  "https://w3id.org/np/RA7lSq6MuK_TIC6JMSHvLtee3lpLoZDOqLJCLXevnrPoU".

Definition PUBINFO_TEMPLATES : list string :=
  [ "https://w3id.org/np/RA0J4vUn_dekg-U1kK3AOEt02p9mT2WO03uGxLDec1jLw";
    "https://w3id.org/np/RAukAcWHRDlkqxk7H2XNSegc1WnHI569INvNr-xdptDGI" ].

(** The attributes of an instance.  [attr_PROVENANCE_TEMPLATE] and
    [attr_PUBINFO_TEMPLATES] are what [self.PROVENANCE_TEMPLATE] and
    [self.PUBINFO_TEMPLATES] resolve to: the class defaults above unless a
    subclass or the instance overrides them. *)
Record t : Type := {
  config : gmap string cell;
  nanopub_uri : string;
  sub_prefix : string;
  used_prefixes : gset string;
  wikidata_labels : list (string * string);
  introduces_uri : option string;
  nanopub_types : list string;
  attr_PROVENANCE_TEMPLATE : option string;
  attr_PUBINFO_TEMPLATES : option (list string)
}.

(** [__init__(self, config)]; [fresh_uri] is what [generate_nanopub_uri()]
    returned. *)
Definition init (cfg : gmap string cell) (fresh_uri : string) : t :=
  {| config := cfg;
     nanopub_uri := fresh_uri;
     sub_prefix := "sub";
     used_prefixes :=
       list_to_set
         ["np"; "dct"; "rdf"; "rdfs"; "xsd"; "prov"; "foaf"; "orcid"; "npx"; "nt"];
     wikidata_labels := [];
     introduces_uri := None;
     nanopub_types := [];
     attr_PROVENANCE_TEMPLATE := Some PROVENANCE_TEMPLATE;
     attr_PUBINFO_TEMPLATES := Some PUBINFO_TEMPLATES |}.

Definition add_prefix (prefix : string) (self : t) : t :=
  {| config := config self;
     nanopub_uri := nanopub_uri self;
     sub_prefix := sub_prefix self;
     used_prefixes := used_prefixes self ∪ {[prefix]};
     wikidata_labels := wikidata_labels self;
     introduces_uri := introduces_uri self;
     nanopub_types := nanopub_types self;
     attr_PROVENANCE_TEMPLATE := attr_PROVENANCE_TEMPLATE self;
     attr_PUBINFO_TEMPLATES := attr_PUBINFO_TEMPLATES self |}.

Definition WIKIDATA_ENTITY : string := "http://www.wikidata.org/entity/".

Definition add_wikidata_label (uri lbl : string) (self : t) : t :=
  if Str.startswith uri WIKIDATA_ENTITY then
    {| config := config self;
       nanopub_uri := nanopub_uri self;
       sub_prefix := sub_prefix self;
       used_prefixes := used_prefixes self;
       wikidata_labels := dict_set (wikidata_labels self) uri lbl;
       introduces_uri := introduces_uri self;
       nanopub_types := nanopub_types self;
       attr_PROVENANCE_TEMPLATE := attr_PROVENANCE_TEMPLATE self;
       attr_PUBINFO_TEMPLATES := attr_PUBINFO_TEMPLATES self |}
  else self.

Definition set_introduces (uri : string) (self : t) : t :=
  {| config := config self;
     nanopub_uri := nanopub_uri self;
     sub_prefix := sub_prefix self;
     used_prefixes := used_prefixes self;
     wikidata_labels := wikidata_labels self;
     introduces_uri := Some uri;
     nanopub_types := nanopub_types self;
     attr_PROVENANCE_TEMPLATE := attr_PROVENANCE_TEMPLATE self;
     attr_PUBINFO_TEMPLATES := attr_PUBINFO_TEMPLATES self |}.

Definition add_nanopub_type (type_uri : string) (self : t) : t :=
  if bool_decide (type_uri ∈ nanopub_types self) then self
  else
    {| config := config self;
       nanopub_uri := nanopub_uri self;
       sub_prefix := sub_prefix self;
       used_prefixes := used_prefixes self;
       wikidata_labels := wikidata_labels self;
       introduces_uri := introduces_uri self;
       nanopub_types := nanopub_types self ++ [type_uri];
       attr_PROVENANCE_TEMPLATE := attr_PROVENANCE_TEMPLATE self;
       attr_PUBINFO_TEMPLATES := attr_PUBINFO_TEMPLATES self |}.

(** One declaration of the prefixes block. *)
Definition prefix_decl (prefix uri : string) : string :=
  "@prefix " +:+ prefix +:+ ": <" +:+ uri +:+ "> .".

Definition get_prefixes_block (self : t) : string :=
  let prefix_lines :=
    [ prefix_decl "this" (nanopub_uri self);
      prefix_decl (sub_prefix self) (nanopub_uri self +:+ "/") ] in
  let prefix_lines :=
    prefix_lines
      ++ omap (fun prefix => prefix_decl prefix <$> PREFIXES !! prefix)
           (merge_sort str_le (elements (used_prefixes self))) in
  Str.join nl prefix_lines.

(** The assertion producer: what a subclass supplies as
    [generate_assertion].  It returns the assertion graph block, or
    raises; it may change any attribute of the generator and the content
    of any mutable object. *)
Class AssertionProducer : Type :=
  generate_assertion : t -> store -> result (string * t * store).

(** [self.config.get(key, default)] *)
Definition config_get (self : t) (key : string) (dflt : scalar) : cell :=
  default (Imm dflt) (config self !! key).

(** [xs if xs else None] *)
Definition or_none {A} (xs : list A) : option (list A) :=
  match xs with
  | [] => None
  | _ :: _ => Some xs
  end.

(** The arguments [generate] passes to [generate_pubinfo_graph]: the
    builder sees every object with the content it has at the call. *)
Definition pubinfo_args (self : t) (h : store)
    (creator_orcid creator_name label template_uri supersedes is_part_of : cell)
  : PubinfoArgs :=
  Build_PubinfoArgs
    (nanopub_uri self)
    (sub_prefix self)
    (deref h creator_orcid)
    (deref h creator_name)
    (deref h label)
    (deref h template_uri)
    (attr_PROVENANCE_TEMPLATE self)
    (attr_PUBINFO_TEMPLATES self)
    (or_none (nanopub_types self))
    (introduces_uri self)
    (or_none (wikidata_labels self))
    (deref h supersedes)
    (deref h is_part_of).

(** [generate(self)], started with the mutable objects as [h] holds
    them. *)
Definition generate `{PyRepr} `{AssertionProducer} (timestamp : string)
    (self : t) (h : store) : result string :=
  let creator_orcid :=
    config_get self "creator_orcid" (SStr "0000-0000-0000-0000") in
  let creator_name := config_get self "creator_name" (SStr "Unknown") in
  let template_uri := config_get self "template_uri" SNone in
  let supersedes := config_get self "supersedes" SNone in
  let is_part_of := config_get self "is_part_of" SNone in
  r <- generate_assertion self h ;;
  let '(assertion, self, h) := (r : string * t * store) in
  let label := config_get self "label" (SStr "Nanopublication") in
  let prefixes := get_prefixes_block self in
  let head := generate_head_graph (sub_prefix self) in
  let provenance :=
    generate_provenance_graph (sub_prefix self) (deref h creator_orcid) in
  pubinfo <- generate_pubinfo_graph timestamp
               (pubinfo_args self h creator_orcid creator_name label
                  template_uri supersedes is_part_of) ;;
  Ok (prefixes +:+ nl +:+ nl +:+ head +:+ nl +:+ nl +:+ assertion
        +:+ nl +:+ nl +:+ provenance +:+ nl +:+ nl +:+ pubinfo +:+ nl).

(** The base class's [generate_assertion]. *)
Definition base_generate_assertion (self : t) (h : store)
  : result (string * t * store) :=
  Raise NotImplementedError.

End NanopubGenerator.


(** * Notions the properties are stated with *)

(** The two-character escaped form of a character, the character itself
    when it needs no escape. *)
Definition escape_char (c : ascii) : string :=
  if Ascii.eqb c BACKSLASH then chr BACKSLASH +:+ chr BACKSLASH
  else if Ascii.eqb c DQUOTE then chr BACKSLASH +:+ dq
  else if Ascii.eqb c LF then chr BACKSLASH +:+ "n"
  else if Ascii.eqb c CR then chr BACKSLASH +:+ "r"
  else chr c.

(** Escaping in one pass, character by character. *)
Fixpoint escape_each (text : string) : string :=
  match text with
  | EmptyString => EmptyString
  | String c text' => escape_char c +:+ escape_each text'
  end.

(** The characters that may follow a backslash in an escaped text. *)
Definition escape_code (c : ascii) : bool :=
  Ascii.eqb c BACKSLASH || Ascii.eqb c DQUOTE
  || Ascii.eqb c "n"%char || Ascii.eqb c "r"%char.

(** A left-to-right scan of the body of a literal.  [pending] says that
    the previous character was a backslash opening an escape.  The scan
    fails on a double quote, a line feed or a carriage return outside an
    escape, and on a backslash that is not followed by an escape code. *)
Fixpoint scan_escaped (pending : bool) (s : string) : bool :=
  match s with
  | EmptyString => negb pending
  | String c s' =>
      if pending then escape_code c && scan_escaped false s'
      else if Ascii.eqb c BACKSLASH then scan_escaped true s'
      else if Ascii.eqb c DQUOTE || Ascii.eqb c LF || Ascii.eqb c CR then false
      else scan_escaped false s'
  end.

Definition well_escaped (s : string) : bool := scan_escaped false s.

(** What [make_literal] puts after the closing quote. *)
Definition literal_suffix (datatype lang : option string) : string :=
  match datatype, lang with
  | Some (String c d), _ => "^^" +:+ String c d
  | _, Some (String c l) => "@" +:+ String c l
  | _, _ => EmptyString
  end.

(** A required field is missing when the configuration has no such key or
    holds a value Python counts as false there ([None], an empty string,
    list or record, zero, [False]). *)
Definition absent_or_empty (config : gmap string pyval) (f : string) : Prop :=
  config !! f = None \/ exists v, config !! f = Some v /\ truthy v = false.

(** The state of a generator after a series of [add_wikidata_label] calls,
    given as their (uri, label) arguments in call order. *)
Definition after_wikidata_calls (self : NanopubGenerator.t)
    (calls : list (string * string)) : NanopubGenerator.t :=
  fold_left
    (fun st call => NanopubGenerator.add_wikidata_label (fst call) (snd call) st)
    calls self.

(** Every key of the Wikidata label map lies in the entity namespace. *)
Definition wikidata_keys_ok (self : NanopubGenerator.t) : Prop :=
  Forall
    (fun kv => Str.startswith (fst kv) NanopubGenerator.WIKIDATA_ENTITY = true)
    (NanopubGenerator.wikidata_labels self).

(** A fixed stand-in for the interpreter's [str()] of objects that are not
    strings, for evaluating the module on concrete inputs. *)
Definition opaque_repr : PyRepr := fun _ => "<object>".

(** A predicate body ends with the [>] of a URI reference or the closing
    quote of a literal, which [rstrip] leaves alone. *)
Definition guarded (s : string) : Prop :=
  exists b c, s = b +:+ chr c /\ (c = ">"%char \/ c = DQUOTE).

(** The [is_part_of] values the builder accepts: a falsy value, or a
    record which has a [uri] whenever it has a non-empty [label].  On any
    other value the builder raises. *)
Definition is_part_of_usable (v : pyval) : bool :=
  negb (truthy v)
  || match v with
     | PDict d =>
         negb (truthy (default PNone (d !! "label")))
         || match d !! "uri" with Some _ => true | None => false end
     | _ => false
     end.

(** The lines the builder has emitted when it reaches the metadata block:
    the opening line, the label triples and the creator triple. *)
Definition preamble `{PyRepr} (a : PubinfoArgs) : result (list string) :=
  lines <- add_is_part_of_label a
             (add_wikidata_lookups a [sub_prefix a +:+ ":pubinfo {"]) ;;
  Ok (add_creator_info a lines).

(** The predicate bodies from the label on, in order: label, provenance
    template, pubinfo templates. *)
Definition tail_bodies `{PyRepr} (a : PubinfoArgs) : list string :=
  [label_body a]
    ++ (if truthy_str (provenance_template_uri a)
        then [provenance_template_body a] else [])
    ++ (if truthy_list (pubinfo_template_uris a)
        then [pubinfo_template_body a] else []).

Definition semicolon (body : string) : string := body +:+ " ;".
Definition period (body : string) : string := body +:+ " .".

(** The end of the metadata block: every body takes a semicolon and the
    custom template triple closes the statement, or, without a custom
    template, the last body takes the period. *)
Definition closing_lines `{PyRepr} (a : PubinfoArgs) : list string :=
  if truthy (template_uri a) then
    map semicolon (tail_bodies a) ++ [template_line a]
  else
    map semicolon (removelast (tail_bodies a))
      ++ [period (List.last (tail_bodies a) EmptyString)].

(** The line that closes the statement on [this:]. *)
Definition final_line `{PyRepr} (a : PubinfoArgs) : string :=
  if truthy (template_uri a) then template_line a
  else if truthy_list (pubinfo_template_uris a) then
    period (pubinfo_template_body a)
  else if truthy_str (provenance_template_uri a) then
    period (provenance_template_body a)
  else period (label_body a).

(** The closing line as the specification words it: the custom template
    triple, else the pubinfo-template list if given, else the label
    line. *)
Definition claimed_final_line `{PyRepr} (a : PubinfoArgs) : string :=
  if truthy (template_uri a) then template_line a
  else if truthy_list (pubinfo_template_uris a) then
    period (pubinfo_template_body a)
  else period (label_body a).

(** The specification's wording as a property of one call: the line
    before the closing brace is the claimed one. *)
Definition final_line_as_claimed `{PyRepr} (timestamp : string)
    (a : PubinfoArgs) : Prop :=
  exists lines,
    pubinfo_lines timestamp a = Ok lines
    /\ last_line (removelast lines) = claimed_final_line a.

(** A line ends with the semicolon that continues a statement, resp. with
    the period that ends it. *)
Definition continues (l : string) : Prop :=
  Str.endswith l " ;" = true /\ Str.endswith l " ." = false.

Definition terminates (l : string) : Prop :=
  Str.endswith l " ." = true /\ Str.endswith l " ;" = false.

(** The number of lines that end a statement. *)
Definition terminators (lines : list string) : nat :=
  length (List.filter (fun l => Str.endswith l " .") lines).

(** A direct call that passes a provenance template and neither pubinfo
    templates nor a custom template. *)
Definition provenance_only_args : PubinfoArgs :=
  {| nanopub_uri := "https://w3id.org/np/RAexample";
     sub_prefix := "sub";
     creator_orcid := PStr "0000-0001-2345-6789";
     creator_name := PStr "A. Researcher";
     label := PStr "Test";
     template_uri := PNone;
     provenance_template_uri := Some "https://example.org/provenance-template";
     pubinfo_template_uris := None;
     nanopub_types := None;
     introduces_uri := None;
     wikidata_labels := None;
     supersedes := PNone;
     is_part_of := PNone |}.

(** A direct call with a custom template, a type and an [is_part_of]
    record that has a uri and a label. *)
Definition custom_template_args : PubinfoArgs :=
  {| nanopub_uri := "https://w3id.org/np/RAexample";
     sub_prefix := "sub";
     creator_orcid := PStr "0000-0001-2345-6789";
     creator_name := PStr "A. Researcher";
     label := PStr "Test";
     template_uri := PStr "https://example.org/template";
     provenance_template_uri := Some "https://example.org/provenance-template";
     pubinfo_template_uris := Some ["https://example.org/p1"; "https://example.org/p2"];
     nanopub_types := Some ["https://example.org/Type"];
     introduces_uri := None;
     wikidata_labels := Some [("http://www.wikidata.org/entity/Q42", "Douglas Adams")];
     supersedes := PNone;
     is_part_of :=
       PDict (<["uri" := PStr "https://example.org/review"]>
                (<["label" := PStr "A review"]> ∅)) |}.

(** A text ends with the character [c]. *)
Definition ends_in (c : ascii) (s : string) : Prop :=
  exists b, s = b +:+ chr c.

(** A block is not empty and has no blank line at either end: it neither
    starts nor ends with a line feed. *)
Definition block_edges_ok (s : string) : bool :=
  negb (String.eqb s EmptyString)
  && negb (Str.startswith s nl)
  && negb (Str.endswith s nl).

(** An entry of a configuration, with the value [.get] falls back on. *)
Definition entry (config : gmap string cell) (key : string) (dflt : scalar)
  : cell :=
  default (Imm dflt) (config !! key).

(** What the pubinfo builder is called with when the assertion producer
    takes the generator from [self] to [self'] and leaves the mutable
    objects as [h'] holds them.  The creator, template, supersedes and
    part-of entries are those of the configuration before the producer
    ran, the label entry that of the configuration after it; every entry
    is seen with its content in [h'].  The templates are the attributes
    of [self']. *)
Definition generate_args (self self' : NanopubGenerator.t) (h' : store)
  : PubinfoArgs :=
  {| nanopub_uri := NanopubGenerator.nanopub_uri self';
     sub_prefix := NanopubGenerator.sub_prefix self';
     creator_orcid :=
       deref h' (entry (NanopubGenerator.config self) "creator_orcid"
                   (SStr "0000-0000-0000-0000"));
     creator_name :=
       deref h' (entry (NanopubGenerator.config self) "creator_name"
                   (SStr "Unknown"));
     label :=
       deref h' (entry (NanopubGenerator.config self') "label"
                   (SStr "Nanopublication"));
     template_uri :=
       deref h' (entry (NanopubGenerator.config self) "template_uri" SNone);
     provenance_template_uri := NanopubGenerator.attr_PROVENANCE_TEMPLATE self';
     pubinfo_template_uris := NanopubGenerator.attr_PUBINFO_TEMPLATES self';
     nanopub_types :=
       match NanopubGenerator.nanopub_types self' with
       | [] => None
       | ts => Some ts
       end;
     introduces_uri := NanopubGenerator.introduces_uri self';
     wikidata_labels :=
       match NanopubGenerator.wikidata_labels self' with
       | [] => None
       | ls => Some ls
       end;
     supersedes :=
       deref h' (entry (NanopubGenerator.config self) "supersedes" SNone);
     is_part_of :=
       deref h' (entry (NanopubGenerator.config self) "is_part_of" SNone) |}.

(** A producer that returns a one-triple graph block and changes
    nothing. *)
Definition one_triple_block : string :=
  "sub:assertion {" +:+ nl
    +:+ "  <https://example.org/s> <https://example.org/p> <https://example.org/o> ."
    +:+ nl +:+ "}".

Definition quiet_producer : NanopubGenerator.AssertionProducer :=
  fun self h => Ok (one_triple_block, self, h).

(** The configuration of the end-to-end example. *)
Definition example_config : gmap string pyval :=
  <["creator_orcid" := PStr "0000-0001-2345-6789"]>
    (<["creator_name" := PStr "A. Researcher"]>
       (<["label" := PStr "Test"]> ∅)).

(** The same configuration as the generator holds it, and a store for a
    configuration without mutable objects. *)
Definition example_cells : gmap string cell :=
  <["creator_orcid" := Imm (SStr "0000-0001-2345-6789")]>
    (<["creator_name" := Imm (SStr "A. Researcher")]>
       (<["label" := Imm (SStr "Test")]> ∅)).

Definition no_objects : store := fun _ => PNone.

(** The example configuration with an [is_part_of] record, object 0 of
    the store, that has a label and no uri. *)
Definition part_of_cells : gmap string cell :=
  <["is_part_of" := Ref 0]> example_cells.

Definition label_only_store : store :=
  fun l =>
    match l with
    | 0 => PDict (<["label" := PStr "A review"]> ∅)
    | _ => PNone
    end.

(** The same record with a uri as well. *)
Definition uri_and_label_store : store :=
  fun l =>
    match l with
    | 0 =>
        PDict (<["uri" := PStr "https://example.org/review"]>
                 (<["label" := PStr "A review"]> ∅))
    | _ => PNone
    end.

(** A producer that removes the uri from the [is_part_of] record in
    place: [self.config["is_part_of"].pop("uri", None)]. *)
Definition uri_popping_producer : NanopubGenerator.AssertionProducer :=
  fun self h =>
    Ok (one_triple_block, self,
        fun l =>
          match l with
          | 0 =>
              match h 0 with
              | PDict d => PDict (delete "uri" d)
              | v => v
              end
          | _ => h l
          end).

(** A producer that adds the missing uri to the [is_part_of] record in
    place: [self.config["is_part_of"]["uri"] = ...]. *)
Definition uri_adding_producer : NanopubGenerator.AssertionProducer :=
  fun self h =>
    Ok (one_triple_block, self,
        fun l =>
          match l with
          | 0 =>
              match h 0 with
              | PDict d =>
                  PDict (<["uri" := PStr "https://example.org/review"]> d)
              | v => v
              end
          | _ => h l
          end).

(** A producer of a subclass that does without the default templates:
    [self.PROVENANCE_TEMPLATE = None] and [self.PUBINFO_TEMPLATES = []]. *)
Definition template_clearing_producer : NanopubGenerator.AssertionProducer :=
  fun self h =>
    Ok (one_triple_block,
        {| NanopubGenerator.config := NanopubGenerator.config self;
           NanopubGenerator.nanopub_uri := NanopubGenerator.nanopub_uri self;
           NanopubGenerator.sub_prefix := NanopubGenerator.sub_prefix self;
           NanopubGenerator.used_prefixes := NanopubGenerator.used_prefixes self;
           NanopubGenerator.wikidata_labels :=
             NanopubGenerator.wikidata_labels self;
           NanopubGenerator.introduces_uri := NanopubGenerator.introduces_uri self;
           NanopubGenerator.nanopub_types := NanopubGenerator.nanopub_types self;
           NanopubGenerator.attr_PROVENANCE_TEMPLATE := None;
           NanopubGenerator.attr_PUBINFO_TEMPLATES := Some [] |},
        h).

(** The five-block claim as the specification words it, for one
    configuration, store and producer: whenever the producer returns a
    block without blank edges, [generate] returns five blocks, with the
    assertion in the middle, none of them empty or with a blank edge,
    one blank line apart and with one line feed at the end. *)
Definition five_blocks_as_claimed `{PyRepr}
    `{NanopubGenerator.AssertionProducer} (timestamp : string)
    (cfg : gmap string cell) (fresh_uri : string) (h : store) : Prop :=
  forall assertion self' h',
    NanopubGenerator.generate_assertion
      (NanopubGenerator.init cfg fresh_uri) h
    = Ok (assertion, self', h') ->
    block_edges_ok assertion = true ->
    exists prefixes head provenance pubinfo,
      NanopubGenerator.generate timestamp
        (NanopubGenerator.init cfg fresh_uri) h
      = Ok (prefixes +:+ nl +:+ nl +:+ head +:+ nl +:+ nl +:+ assertion
              +:+ nl +:+ nl +:+ provenance +:+ nl +:+ nl +:+ pubinfo +:+ nl)
      /\ Forall (fun block => block_edges_ok block = true)
           [prefixes; head; assertion; provenance; pubinfo].

(** The fixed-template claim as the specification words it, for one
    configuration, store and producer: whenever [generate] returns a
    document, the lines of its pubinfo graph hold the provenance-template
    triple with the default template and the pubinfo-template list with
    the two default templates. *)
Definition fixed_templates_as_claimed `{PyRepr}
    `{NanopubGenerator.AssertionProducer} (timestamp : string)
    (cfg : gmap string cell) (fresh_uri : string) (h : store) : Prop :=
  forall assertion self' h' document,
    NanopubGenerator.generate_assertion
      (NanopubGenerator.init cfg fresh_uri) h
    = Ok (assertion, self', h') ->
    NanopubGenerator.generate timestamp
      (NanopubGenerator.init cfg fresh_uri) h
    = Ok document ->
    exists lines,
      pubinfo_lines timestamp
        (generate_args (NanopubGenerator.init cfg fresh_uri) self' h')
      = Ok lines
      /\ List.Exists
           (fun l =>
              Str.startswith l
                ("    nt:wasCreatedFromProvenanceTemplate <"
                   +:+ NanopubGenerator.PROVENANCE_TEMPLATE +:+ ">")
              = true) lines
      /\ List.Exists
           (fun l =>
              Str.startswith l
                ("    nt:wasCreatedFromPubinfoTemplate "
                   +:+ "<https://w3id.org/np/RA0J4vUn_dekg-U1kK3AOEt02p9mT2WO03uGxLDec1jLw>,"
                   +:+ nl
                   +:+ "      <https://w3id.org/np/RAukAcWHRDlkqxk7H2XNSegc1WnHI569INvNr-xdptDGI>")
              = true) lines.

(** Decoding of an escaped text: the character after a backslash stands
    for a line feed ([n]), a carriage return ([r]) or itself. *)
Definition unescape_code (c : ascii) : ascii :=
  if Ascii.eqb c "n"%char then LF
  else if Ascii.eqb c "r"%char then CR
  else c.

Fixpoint unescape_from (pending : bool) (s : string) : string :=
  match s with
  | EmptyString => EmptyString
  | String c s' =>
      if pending then String (unescape_code c) (unescape_from false s')
      else if Ascii.eqb c BACKSLASH then unescape_from true s'
      else String c (unescape_from false s')
  end.

Definition unescape (s : string) : string := unescape_from false s.

(** The characters [escape_literal] replaces, and how many a text has. *)
Definition is_special (c : ascii) : bool :=
  Ascii.eqb c BACKSLASH || Ascii.eqb c DQUOTE
  || Ascii.eqb c LF || Ascii.eqb c CR.

Fixpoint specials (s : string) : nat :=
  match s with
  | EmptyString => 0
  | String c s' => (if is_special c then 1 else 0) + specials s'
  end.

(** [d.get(k)] on a dictionary kept in insertion order. *)
Fixpoint dict_lookup (d : list (string * string)) (k : string) : option string :=
  match d with
  | [] => None
  | (k', v') :: d' => if String.eqb k' k then Some v' else dict_lookup d' k
  end.

(** The calls a producer can make on the generator's own methods. *)
Inductive call : Type :=
  | AddPrefix (prefix : string)
  | AddWikidataLabel (uri lbl : string)
  | SetIntroduces (uri : string)
  | AddNanopubType (type_uri : string).

Definition run_call (self : NanopubGenerator.t) (c : call) : NanopubGenerator.t :=
  match c with
  | AddPrefix prefix => NanopubGenerator.add_prefix prefix self
  | AddWikidataLabel uri lbl => NanopubGenerator.add_wikidata_label uri lbl self
  | SetIntroduces uri => NanopubGenerator.set_introduces uri self
  | AddNanopubType type_uri => NanopubGenerator.add_nanopub_type type_uri self
  end.

Definition run_calls (self : NanopubGenerator.t) (calls : list call)
  : NanopubGenerator.t :=
  fold_left run_call calls self.

(** The entries of the prefix table whose name is in the used set. *)
Definition used_known (used : gset string) : gmap string string :=
  filter (fun e : string * string => fst e ∈ used) PREFIXES.

(** A character is a lower-case hexadecimal digit. *)
Definition is_hex (c : ascii) : bool :=
  Str.mem c "0123456789abcdef".

Fixpoint all_chars (p : ascii -> bool) (s : string) : bool :=
  match s with
  | EmptyString => true
  | String c s' => p c && all_chars p s'
  end.

(** The prefixes every generator starts with. *)
Definition BASELINE_PREFIXES : list string :=
  ["np"; "dct"; "rdf"; "rdfs"; "xsd"; "prov"; "foaf"; "orcid"; "npx"; "nt"].

(** One declaration line of [format_prefixes]. *)
Definition prefix_entry_line (e : string * string) : string :=
  "@prefix " +:+ fst e +:+ ": <" +:+ snd e +:+ "> .".

(** The sections of the pubinfo graph, written out one by one. *)
Definition optional_line (b : bool) (l : string) : list string :=
  if b then [l] else [].

(** The Wikidata label triples and the blank line after them. *)
Definition label_section `{PyRepr} (a : PubinfoArgs) : list string :=
  match wikidata_labels a with
  | Some (e :: es) =>
      map (fun e => label_triple (fst e) (PStr (snd e))) (e :: es)
        ++ [EmptyString]
  | _ => []
  end.

(** The label triple of [is_part_of] and the blank line after it. *)
Definition part_of_label_section `{PyRepr} (a : PubinfoArgs) : list string :=
  match is_part_of a with
  | PDict d =>
      match d !! "label", d !! "uri" with
      | Some lbl, Some uri =>
          if truthy lbl then [label_triple (py_str uri) lbl; EmptyString]
          else []
      | _, _ => []
      end
  | _ => []
  end.

(** The [isPartOf] predicate line. *)
Definition part_of_predicate `{PyRepr} (a : PubinfoArgs) : list string :=
  match is_part_of a with
  | PDict d =>
      match d !! "uri" with
      | Some uri => if truthy uri then [is_part_of_line uri] else []
      | None => []
      end
  | _ => []
  end.

(** The whole graph, line by line. *)
Definition pubinfo_layout `{PyRepr} (timestamp : string) (a : PubinfoArgs)
  : list string :=
  [sub_prefix a +:+ ":pubinfo {"]
    ++ label_section a
    ++ part_of_label_section a
    ++ [creator_line a; EmptyString]
    ++ [created_line timestamp; creator_ref_line a; license_line]
    ++ optional_line (truthy_list (nanopub_types a)) (types_line a)
    ++ optional_line (truthy_str (introduces_uri a)) (introduces_line a)
    ++ optional_line (truthy (supersedes a)) (supersedes_line a)
    ++ part_of_predicate a
    ++ [created_at_line]
    ++ closing_lines a
    ++ ["}"].

(** The base class as a producer: its [generate_assertion] raises. *)
Definition base_producer : NanopubGenerator.AssertionProducer :=
  NanopubGenerator.base_generate_assertion.

(** A digest function for examples: sixty-four hexadecimal zeros. *)
Definition zero_digest (_ : string) : string :=
  "0000000000000000000000000000000000000000000000000000000000000000".

(** A direct call whose [is_part_of] has a uri and no label. *)
Definition part_of_uri_only_args : PubinfoArgs :=
  {| nanopub_uri := "https://w3id.org/np/RAexample";
     sub_prefix := "sub";
     creator_orcid := PStr "0000-0001-2345-6789";
     creator_name := PStr "A. Researcher";
     label := PStr "Test";
     template_uri := PNone;
     provenance_template_uri := None;
     pubinfo_template_uris := None;
     nanopub_types := None;
     introduces_uri := None;
     wikidata_labels := None;
     supersedes := PNone;
     is_part_of := PDict (<["uri" := PStr "https://example.org/review"]> ∅) |}.

(** A direct call whose [is_part_of] has a label and no uri. *)
Definition part_of_label_only_args : PubinfoArgs :=
  {| nanopub_uri := "https://w3id.org/np/RAexample";
     sub_prefix := "sub";
     creator_orcid := PStr "0000-0001-2345-6789";
     creator_name := PStr "A. Researcher";
     label := PStr "Test";
     template_uri := PNone;
     provenance_template_uri := None;
     pubinfo_template_uris := None;
     nanopub_types := None;
     introduces_uri := None;
     wikidata_labels := None;
     supersedes := PNone;
     is_part_of := PDict (<["label" := PStr "A review"]> ∅) |}.

(** A producer that records a type and an introduced URI through the
    generator's mutators and returns a one-triple graph block. *)
Definition recording_calls : list call :=
  [AddNanopubType "https://example.org/Type";
   SetIntroduces "https://example.org/thing"].

Definition recording_producer : NanopubGenerator.AssertionProducer :=
  fun self h => Ok (one_triple_block, run_calls self recording_calls, h).

(** A producer that sets the label and the creator name in the
    configuration: [self.config["label"] = ...] and
    [self.config["creator_name"] = ...]. *)
Definition relabeled (self : NanopubGenerator.t) : NanopubGenerator.t :=
  {| NanopubGenerator.config :=
       <["creator_name" := Imm (SStr "Somebody Else")]>
         (<["label" := Imm (SStr "Set by the producer")]>
            (NanopubGenerator.config self));
     NanopubGenerator.nanopub_uri := NanopubGenerator.nanopub_uri self;
     NanopubGenerator.sub_prefix := NanopubGenerator.sub_prefix self;
     NanopubGenerator.used_prefixes := NanopubGenerator.used_prefixes self;
     NanopubGenerator.wikidata_labels := NanopubGenerator.wikidata_labels self;
     NanopubGenerator.introduces_uri := NanopubGenerator.introduces_uri self;
     NanopubGenerator.nanopub_types := NanopubGenerator.nanopub_types self;
     NanopubGenerator.attr_PROVENANCE_TEMPLATE :=
       NanopubGenerator.attr_PROVENANCE_TEMPLATE self;
     NanopubGenerator.attr_PUBINFO_TEMPLATES :=
       NanopubGenerator.attr_PUBINFO_TEMPLATES self |}.

Definition relabeling_producer : NanopubGenerator.AssertionProducer :=
  fun self h => Ok (one_triple_block, relabeled self, h).


(** * Properties *)

(** ** Strings *)

Lemma app_assoc_s (s1 s2 s3 : string) : (s1 +:+ s2) +:+ s3 = s1 +:+ s2 +:+ s3.
Proof. induction s1 as [|c s1 IH]; simpl; [reflexivity | now rewrite IH]. Qed.

Lemma app_empty_r (s : string) : s +:+ EmptyString = s.
Proof. induction s as [|c s IH]; simpl; [reflexivity | now rewrite IH]. Qed.

Lemma replace_app (s1 s2 : string) (old : ascii) (new : string) :
  Str.replace (s1 +:+ s2) old new
  = Str.replace s1 old new +:+ Str.replace s2 old new.
Proof.
  induction s1 as [|c s1 IH]; simpl; [reflexivity |].
  now rewrite IH, app_assoc_s.
Qed.

Lemma mem_app (c : ascii) (s1 s2 : string) :
  Str.mem c (s1 +:+ s2) = Str.mem c s1 || Str.mem c s2.
Proof.
  induction s1 as [|d s1 IH]; simpl; [reflexivity |].
  now rewrite IH, orb_assoc.
Qed.

(** ** Escaping *)

Lemma escape_literal_cons (c : ascii) (text : string) :
  escape_literal (String c text) = escape_char c +:+ escape_literal text.
Proof.
  unfold escape_literal. cbn [Str.replace].
  rewrite !replace_app. f_equal.
  unfold escape_char.
  destruct (Ascii.eqb_spec c BACKSLASH) as [->|Hb]; [reflexivity |].
  cbn [Str.replace chr String.append].
  destruct (Ascii.eqb_spec c DQUOTE) as [->|Hq]; [reflexivity |].
  cbn [Str.replace chr String.append].
  destruct (Ascii.eqb_spec c LF) as [->|Hn]; [reflexivity |].
  cbn [Str.replace chr String.append].
  destruct (Ascii.eqb_spec c CR) as [->|Hr]; reflexivity.
Qed.

Lemma escape_literal_each (text : string) :
  escape_literal text = escape_each text.
Proof.
  induction text as [|c text IH]; [reflexivity |].
  rewrite escape_literal_cons, IH. reflexivity.
Qed.

Lemma scan_escape_char (c : ascii) (s : string) :
  scan_escaped false (escape_char c +:+ s) = scan_escaped false s.
Proof.
  unfold escape_char.
  destruct (Ascii.eqb_spec c BACKSLASH) as [->|Hb]; [reflexivity |].
  destruct (Ascii.eqb_spec c DQUOTE) as [->|Hq]; [reflexivity |].
  destruct (Ascii.eqb_spec c LF) as [->|Hn]; [reflexivity |].
  destruct (Ascii.eqb_spec c CR) as [->|Hr]; [reflexivity |].
  cbn [chr String.append scan_escaped].
  apply Ascii.eqb_neq in Hb, Hq, Hn, Hr. now rewrite Hb, Hq, Hn, Hr.
Qed.

Lemma mem_escape_char (c d : ascii) :
  d = LF \/ d = CR -> Str.mem d (escape_char c) = false.
Proof.
  intros Hd. unfold escape_char.
  destruct (Ascii.eqb_spec c BACKSLASH) as [->|Hb];
    [destruct Hd as [-> | ->]; reflexivity |].
  destruct (Ascii.eqb_spec c DQUOTE) as [->|Hq];
    [destruct Hd as [-> | ->]; reflexivity |].
  destruct (Ascii.eqb_spec c LF) as [->|Hn];
    [destruct Hd as [-> | ->]; reflexivity |].
  destruct (Ascii.eqb_spec c CR) as [->|Hr];
    [destruct Hd as [-> | ->]; reflexivity |].
  cbn. rewrite orb_false_r. apply Ascii.eqb_neq.
  destruct Hd as [-> | ->]; congruence.
Qed.

Lemma well_escaped_escape_literal (text : string) :
  well_escaped (escape_literal text) = true.
Proof.
  rewrite escape_literal_each. unfold well_escaped.
  induction text as [|c text IH]; [reflexivity |].
  cbn [escape_each]. now rewrite scan_escape_char.
Qed.

Lemma no_raw_line_break (text : string) (d : ascii) :
  d = LF \/ d = CR -> Str.mem d (escape_literal text) = false.
Proof.
  intros Hd. rewrite escape_literal_each.
  induction text as [|c text IH]; [reflexivity |].
  cbn [escape_each]. now rewrite mem_app, mem_escape_char, IH.
Qed.

Lemma make_literal_shape `{PyRepr} (value : pyval) (datatype lang : option string) :
  make_literal value datatype lang
  = dq +:+ escape_literal (py_str value) +:+ dq +:+ literal_suffix datatype lang.
Proof.
  unfold make_literal, literal_suffix, truthy_str, text_of.
  destruct datatype as [[|c d]|]; cbn;
    destruct lang as [[|c' l]|]; cbn; now rewrite ?app_empty_r.
Qed.

(** C5. [escape_literal] replaces backslash, double quote, line feed and
    carriage return by their two-character escaped forms, backslash
    first: the four successive replacements amount to escaping each
    character once.  The result therefore scans as a well-escaped text (no
    double quote and no backslash outside an escape) and holds no line
    feed and no carriage return; [make_literal] puts exactly that text
    between its two quotes, whatever follows the closing quote. *)
Theorem escape_literal_sound `{PyRepr} (text : string) :
  escape_literal text = escape_each text
  /\ well_escaped (escape_literal text) = true
  /\ Str.mem LF (escape_literal text) = false
  /\ Str.mem CR (escape_literal text) = false
  /\ forall datatype lang,
       make_literal (PStr text) datatype lang
       = dq +:+ escape_literal text +:+ dq +:+ literal_suffix datatype lang.
Proof.
  split; [apply escape_literal_each |].
  split; [apply well_escaped_escape_literal |].
  split; [apply no_raw_line_break; now left |].
  split; [apply no_raw_line_break; now right |].
  intros datatype lang. apply (make_literal_shape (PStr text)).
Qed.


(** C7. [make_uri] wraps a value that begins with [http://] or [https://]
    in angle brackets whatever the prefix; otherwise it returns
    [prefix:value] when a (non-empty) prefix is supplied, and the value in
    angle brackets when none is. *)
Theorem make_uri_spec (value : string) (prefix : option string) :
  make_uri value prefix
  = (if Str.startswith value "http://" || Str.startswith value "https://"
     then "<" +:+ value +:+ ">"
     else match prefix with
          | Some (String c p) => String c p +:+ ":" +:+ value
          | _ => "<" +:+ value +:+ ">"
          end)
  /\ (forall p, make_uri "http://example.org/x" p = "<http://example.org/x>")
  /\ make_uri "x" (Some "ex") = "ex:x"
  /\ make_uri "x" None = "<x>".
Proof.
  split; [| split; [intros p; reflexivity | split; reflexivity]].
  unfold make_uri, truthy_str, text_of.
  destruct (_ || _); [reflexivity |].
  destruct prefix as [[|c p]|]; reflexivity.
Qed.

(** ** Validation *)

Lemma is_missing_spec (config : gmap string pyval) (f : string) :
  is_missing config f = true <-> absent_or_empty config f.
Proof.
  unfold is_missing, absent_or_empty. destruct (config !! f) as [v|] eqn:E.
  - rewrite negb_true_iff. split.
    + intros Hv. right. now exists v.
    + intros [Hn | (v' & Hv' & Hf)]; [discriminate | congruence].
  - split; [now left | reflexivity].
Qed.

(** C4. [validate_required_fields] raises if and only if some required
    field is absent from the configuration or has an empty value; the
    error it raises is a [ValueError] whose message is the fixed heading
    followed by the comma-separated list of all such fields, in the order
    of [required]; it returns [None] otherwise and has no other effect. *)
Theorem validate_required_fields_spec (config : gmap string pyval)
    (required : list string) :
  let missing := List.filter (is_missing config) required in
  ((exists e, validate_required_fields config required = Raise e)
   <-> exists f, In f required /\ absent_or_empty config f)
  /\ (forall e,
        validate_required_fields config required = Raise e ->
        e = ValueError ("Missing required fields: " +:+ Str.join ", " missing))
  /\ (forall f, In f missing <-> In f required /\ absent_or_empty config f)
  /\ ((forall f, In f required -> ~ absent_or_empty config f) ->
      validate_required_fields config required = Ok tt).
Proof.
  intros missing.
  assert (Hin : forall f, In f missing <-> In f required /\ absent_or_empty config f).
  { intros f. unfold missing. rewrite filter_In, is_missing_spec. tauto. }
  unfold validate_required_fields. fold missing.
  split; [split |]; [| | split; [| split]].
  - intros [e He]. destruct missing as [|f0 rest] eqn:Em; [discriminate |].
    exists f0. apply Hin. now left.
  - intros (f & Hf). apply Hin in Hf.
    destruct missing as [|f0 rest]; [destruct Hf | eauto].
  - intros e He. destruct missing as [|f0 rest]; [discriminate |].
    now injection He as <-.
  - exact Hin.
  - intros Hnone. destruct missing as [|f0 rest]; [reflexivity |].
    exfalso. destruct (proj1 (Hin f0) (or_introl eq_refl)) as [Hr Ha].
    exact (Hnone f0 Hr Ha).
Qed.

(** ** Wikidata labels *)

Lemma dict_set_keys (P : string -> Prop) (d : list (string * string)) (k v : string) :
  P k -> Forall (fun kv => P (fst kv)) d ->
  Forall (fun kv => P (fst kv)) (dict_set d k v).
Proof.
  intros Hk Hd. induction Hd as [|[k' v'] d' Hk' Hd' IH]; simpl.
  - repeat constructor. exact Hk.
  - destruct (String.eqb k' k); constructor; assumption.
Qed.

Lemma add_wikidata_label_keeps (uri lbl : string) (self : NanopubGenerator.t) :
  wikidata_keys_ok self ->
  wikidata_keys_ok (NanopubGenerator.add_wikidata_label uri lbl self).
Proof.
  unfold wikidata_keys_ok, NanopubGenerator.add_wikidata_label. intros Hinv.
  destruct (Str.startswith uri NanopubGenerator.WIKIDATA_ENTITY) eqn:E;
    [| exact Hinv].
  cbn. now apply (dict_set_keys
    (fun k => Str.startswith k NanopubGenerator.WIKIDATA_ENTITY = true)).
Qed.

Lemma after_wikidata_calls_keeps (calls : list (string * string))
    (self : NanopubGenerator.t) :
  wikidata_keys_ok self -> wikidata_keys_ok (after_wikidata_calls self calls).
Proof.
  revert self. induction calls as [|[u l] calls IH]; intros self Hinv; simpl.
  - exact Hinv.
  - apply IH, add_wikidata_label_keeps, Hinv.
Qed.

(** C8. After any series of [add_wikidata_label] calls on a freshly
    constructed generator, every key of [wikidata_labels] starts with the
    Wikidata entity namespace; a call whose URI is outside that namespace
    leaves the generator, and so the map, as it was. *)
Theorem wikidata_labels_namespace :
  (forall (cfg : gmap string cell) (fresh_uri : string)
          (calls : list (string * string)),
      Forall
        (fun kv =>
           Str.startswith (fst kv) "http://www.wikidata.org/entity/" = true)
        (NanopubGenerator.wikidata_labels
           (after_wikidata_calls (NanopubGenerator.init cfg fresh_uri) calls)))
  /\ (forall (self : NanopubGenerator.t) (uri lbl : string),
        Str.startswith uri "http://www.wikidata.org/entity/" = false ->
        NanopubGenerator.add_wikidata_label uri lbl self = self).
Proof.
  split.
  - intros cfg fresh_uri calls.
    apply (after_wikidata_calls_keeps calls). constructor.
  - intros self uri lbl Hout. unfold NanopubGenerator.add_wikidata_label.
    unfold NanopubGenerator.WIKIDATA_ENTITY. now rewrite Hout.
Qed.

(** ** Line endings *)

Lemma endswith_cons (c : ascii) (s suf : string) :
  Str.endswith (String c s) suf
  = if String.eqb (String c s) suf then true else Str.endswith s suf.
Proof. reflexivity. Qed.

Lemma endswith_refl (s : string) : Str.endswith s s = true.
Proof.
  destruct s as [|c s]; [reflexivity |].
  now rewrite endswith_cons, String.eqb_refl.
Qed.

Lemma endswith_app_r (p s suf : string) :
  Str.endswith s suf = true -> Str.endswith (p +:+ s) suf = true.
Proof.
  intros Hs. induction p as [|c p IH]; [exact Hs |].
  change (String c p +:+ s) with (String c (p +:+ s)).
  rewrite endswith_cons, IH. now destruct (String.eqb _ _).
Qed.

Lemma endswith_split (s suf : string) :
  Str.endswith s suf = true -> exists p, s = p +:+ suf.
Proof.
  induction s as [|c s IH].
  - destruct suf; [| discriminate]. now exists EmptyString.
  - rewrite endswith_cons.
    destruct (String.eqb_spec (String c s) suf) as [<-|_].
    + now exists EmptyString.
    + intros Hs. destruct (IH Hs) as [p ->]. now exists (String c p).
Qed.

Lemma endswith_last_char (b : string) (c x y : ascii) :
  c <> y -> Str.endswith (b +:+ chr c) (String x (chr y)) = false.
Proof.
  intros Hc. induction b as [|z b IH].
  - change (EmptyString +:+ chr c) with (String c EmptyString).
    rewrite endswith_cons.
    destruct (String.eqb_spec (String c EmptyString) (String x (chr y)))
      as [E|_]; [discriminate | reflexivity].
  - change (String z b +:+ chr c) with (String z (b +:+ chr c)).
    rewrite endswith_cons, IH.
    destruct (String.eqb_spec (String z (b +:+ chr c)) (String x (chr y)))
      as [E|_]; [| reflexivity].
    exfalso. injection E as _ E.
    destruct b as [|w b]; simpl in E.
    + injection E as E. now apply Hc.
    + injection E as _ E. destruct b; discriminate.
Qed.

Lemma semicolon_continues (b : string) : continues (semicolon b).
Proof.
  unfold continues, semicolon. split.
  - apply endswith_app_r, endswith_refl.
  - change (b +:+ " ;") with (b +:+ " " +:+ chr ";").
    rewrite <- app_assoc_s. now apply endswith_last_char.
Qed.

Lemma period_terminates (b : string) : terminates (period b).
Proof.
  unfold terminates, period. split.
  - apply endswith_app_r, endswith_refl.
  - change (b +:+ " .") with (b +:+ " " +:+ chr ".").
    rewrite <- app_assoc_s. now apply endswith_last_char.
Qed.

Lemma continues_app (p l : string) : continues l -> continues (p +:+ l).
Proof.
  intros [Hs _]. destruct (endswith_split _ _ Hs) as [q ->].
  rewrite <- app_assoc_s. apply semicolon_continues.
Qed.

Lemma terminates_app (p l : string) : terminates l -> terminates (p +:+ l).
Proof.
  intros [Hs _]. destruct (endswith_split _ _ Hs) as [q ->].
  rewrite <- app_assoc_s. apply period_terminates.
Qed.

Lemma rstrip_semicolon (b : string) (c : ascii) :
  Str.mem c " ;" = false ->
  Str.rstrip ((b +:+ chr c) +:+ " ;") " ;" = b +:+ chr c.
Proof.
  intros Hc. induction b as [|x b IH]; simpl.
  - simpl in Hc. now rewrite Hc.
  - simpl in IH. rewrite IH. now destruct b.
Qed.

(** ** Guarded bodies *)

Lemma guarded_app (p s : string) : guarded s -> guarded (p +:+ s).
Proof.
  intros (b & c & -> & Hc). exists (p +:+ b), c.
  now rewrite app_assoc_s.
Qed.

Lemma guarded_angle (t : string) : guarded (angle t).
Proof.
  exists ("<" +:+ t), ">"%char. unfold angle.
  rewrite app_assoc_s. split; [reflexivity | now left].
Qed.

Lemma guarded_literal `{PyRepr} (v : pyval) : guarded (make_literal v None None).
Proof.
  exists (dq +:+ escape_literal (py_str v)), DQUOTE.
  unfold make_literal. cbn [truthy_str].
  rewrite app_assoc_s. split; [reflexivity | now right].
Qed.

Lemma guarded_join (sep : string) (ts : list string) :
  ts <> [] -> guarded (Str.join sep (map angle ts)).
Proof.
  intros Hne. induction ts as [|t ts IH]; [congruence |].
  destruct ts as [|t' ts].
  - apply guarded_angle.
  - change (guarded (angle t +:+ sep +:+ Str.join sep (map angle (t' :: ts)))).
    apply guarded_app, guarded_app, IH. discriminate.
Qed.

Lemma guarded_rstrip (body : string) :
  guarded body -> Str.rstrip (semicolon body) " ;" = body.
Proof.
  intros (b & c & -> & Hc). apply rstrip_semicolon.
  destruct Hc as [-> | ->]; reflexivity.
Qed.

Lemma guarded_not_period (body : string) :
  guarded body -> Str.endswith body " ." = false.
Proof.
  intros (b & c & -> & Hc). apply endswith_last_char.
  destruct Hc as [-> | ->]; discriminate.
Qed.

(** ** The pubinfo graph *)

Lemma terminators_continues (lines : list string) :
  Forall continues lines -> terminators lines = 0.
Proof.
  unfold terminators. induction 1 as [|l lines [_ Hl] _ IH]; simpl.
  - reflexivity.
  - now rewrite Hl.
Qed.

Lemma terminators_closed (lines : list string) (final : string) :
  Forall continues lines -> terminates final ->
  terminators (lines ++ [final]) = 1.
Proof.
  intros Hl [Hf _]. unfold terminators.
  rewrite List.filter_app, List.length_app. fold (terminators lines).
  rewrite (terminators_continues _ Hl). simpl. now rewrite Hf.
Qed.

Lemma dict_not_empty (d : gmap string pyval) (k : string) (v : pyval) :
  d !! k = Some v -> truthy (PDict d) = true.
Proof.
  intros Hk. simpl. rewrite negb_true_iff. apply bool_decide_eq_false.
  intros ->. rewrite lookup_empty in Hk. discriminate.
Qed.

(** Splits a [Forall] over a list given by its elements. *)
Ltac forall_list :=
  repeat match goal with
         | |- Forall _ (if ?b then _ else _) => destruct b
         | |- Forall _ (_ :: _) => constructor
         | |- Forall _ [] => constructor
         | |- Forall _ (_ ++ _) => apply Forall_app; split
         end.

Section PubinfoProperties.
Context `{PyRepr}.
Variable timestamp : string.
Variable a : PubinfoArgs.

Lemma label_body_guarded : guarded (label_body a).
Proof. apply guarded_app, guarded_literal. Qed.

Lemma provenance_template_body_guarded : guarded (provenance_template_body a).
Proof. apply guarded_app, guarded_angle. Qed.

Lemma pubinfo_template_body_guarded :
  truthy_list (pubinfo_template_uris a) = true ->
  guarded (pubinfo_template_body a).
Proof.
  intros Ht. apply guarded_app, guarded_join.
  destruct (pubinfo_template_uris a) as [[|t ts]|]; now simpl in *.
Qed.

Lemma close_statement_guarded (front : list string) (body : string) :
  guarded body ->
  close_statement a (front ++ [semicolon body])
  = if truthy (template_uri a)
    then front ++ [semicolon body; template_line a]
    else front ++ [period body].
Proof.
  intros Hb. unfold close_statement, last_line, set_last_line.
  cbv zeta. rewrite !last_last, !removelast_last, (guarded_rstrip _ Hb).
  rewrite (guarded_not_period _ Hb). cbn [negb].
  destruct (truthy (template_uri a)); [| reflexivity].
  rewrite <- app_assoc. reflexivity.
Qed.

Lemma close_template_refs (front : list string) :
  close_statement a (add_template_refs a (front ++ [semicolon (label_body a)]))
  = front ++ closing_lines a.
Proof.
  unfold add_template_refs, closing_lines, tail_bodies.
  destruct (truthy_str (provenance_template_uri a)) eqn:Ep;
    destruct (truthy_list (pubinfo_template_uris a)) eqn:Eq.
  - change (((front ++ [semicolon (label_body a)])
               ++ [provenance_template_body a +:+ " ;"])
              ++ [pubinfo_template_body a +:+ " ;"])
      with (((front ++ [semicolon (label_body a)])
               ++ [semicolon (provenance_template_body a)])
              ++ [semicolon (pubinfo_template_body a)]).
    rewrite close_statement_guarded by now apply pubinfo_template_body_guarded.
    destruct (truthy (template_uri a)); simpl; now rewrite <- !app_assoc.
  - change ((front ++ [semicolon (label_body a)])
              ++ [provenance_template_body a +:+ " ;"])
      with ((front ++ [semicolon (label_body a)])
              ++ [semicolon (provenance_template_body a)]).
    rewrite close_statement_guarded by apply provenance_template_body_guarded.
    destruct (truthy (template_uri a)); simpl; now rewrite <- !app_assoc.
  - change ((front ++ [semicolon (label_body a)])
              ++ [pubinfo_template_body a +:+ " ;"])
      with ((front ++ [semicolon (label_body a)])
              ++ [semicolon (pubinfo_template_body a)]).
    rewrite close_statement_guarded by now apply pubinfo_template_body_guarded.
    destruct (truthy (template_uri a)); simpl; now rewrite <- !app_assoc.
  - rewrite close_statement_guarded by apply label_body_guarded.
    destruct (truthy (template_uri a)); reflexivity.
Qed.

Lemma closing_lines_final :
  exists init,
    closing_lines a = init ++ [final_line a]
    /\ Forall continues init
    /\ terminates (final_line a).
Proof.
  unfold closing_lines, final_line, tail_bodies.
  destruct (truthy (template_uri a)).
  - eexists. split; [reflexivity |]. split.
    + apply List.Forall_forall. intros l Hl. apply in_map_iff in Hl.
      destruct Hl as (b & <- & _). apply semicolon_continues.
    + unfold template_line.
      change (terminates ("    nt:wasCreatedFromTemplate "
                +:+ period (angle (py_str (template_uri a))))).
      apply terminates_app, period_terminates.
  - eexists. split; [| split].
    + f_equal. f_equal.
      destruct (truthy_list (pubinfo_template_uris a));
        destruct (truthy_str (provenance_template_uri a)); reflexivity.
    + apply List.Forall_forall. intros l Hl. apply in_map_iff in Hl.
      destruct Hl as (b & <- & _). apply semicolon_continues.
    + destruct (truthy_list (pubinfo_template_uris a));
        destruct (truthy_str (provenance_template_uri a));
        apply period_terminates.
Qed.


Hypothesis usable : is_part_of_usable (is_part_of a) = true.

Lemma py_and_get_usable (key : string) :
  exists b, py_and_get (is_part_of a) key = Ok b.
Proof.
  unfold py_and_get. unfold is_part_of_usable in usable.
  destruct (truthy (is_part_of a)) eqn:Et; [| now exists false].
  destruct (is_part_of a); try discriminate. simpl. eauto.
Qed.

Lemma add_is_part_of_label_ok :
  exists extra,
    (forall lines, add_is_part_of_label a lines = Ok (lines ++ extra))
    /\ (extra = []
        \/ exists uri lbl, extra = [label_triple uri lbl; EmptyString]).
Proof.
  unfold add_is_part_of_label, py_and_get. unfold is_part_of_usable in usable.
  destruct (truthy (is_part_of a)) eqn:Et.
  - destruct (is_part_of a) as [| | | | | |d]; try discriminate.
    cbn [negb orb] in usable. cbn [py_get rbind py_item].
    destruct (truthy (default PNone (d !! "label"))) eqn:El.
    + destruct (d !! "uri") as [uri|]; [| discriminate].
      destruct (d !! "label") as [lbl|]; [| discriminate].
      cbn [rbind]. eexists. split; [intros lines; reflexivity |].
      right. eauto.
    + exists []. split; [| now left]. intros lines. now rewrite app_nil_r.
  - exists []. split; [| now left]. intros lines. cbn. now rewrite app_nil_r.
Qed.

Lemma add_metadata_ok :
  exists mid,
    Forall continues mid
    /\ Forall (fun l => Str.startswith l "  <" = false) mid
    /\ forall lines,
         add_metadata timestamp a lines
         = Ok (lines ++ created_line timestamp :: mid
                 ++ [semicolon (label_body a)]).
Proof.
  assert (Hc : forall b, continues (b +:+ " ;")) by apply semicolon_continues.
  assert (Huri : exists part,
             Forall continues part
             /\ Forall (fun l => Str.startswith l "  <" = false) part
             /\ forall (lines : list string)
                       (k : list string -> result (list string)),
                 (has_uri <- py_and_get (is_part_of a) "uri" ;;
                  lines' <- (if (has_uri : bool) then
                               uri <- py_item (is_part_of a) "uri" ;;
                               Ok (lines ++ [is_part_of_line uri])
                             else Ok lines) ;;
                  k lines') = k (lines ++ part)).
  { unfold py_and_get. unfold is_part_of_usable in usable.
    destruct (truthy (is_part_of a)) eqn:Et.
    - destruct (is_part_of a) as [| | | | | |d]; try discriminate.
      cbn [py_get rbind py_item].
      destruct (d !! "uri") as [uri|].
      + change (default PNone (Some uri)) with uri.
        destruct (truthy uri).
        * exists [is_part_of_line uri]. split; [| split].
          -- forall_list. unfold is_part_of_line.
             apply continues_app, Hc.
          -- forall_list. reflexivity.
          -- reflexivity.
        * exists []. split; [| split]; try constructor.
          intros lines k. now rewrite app_nil_r.
      + exists []. split; [| split]; try constructor.
        intros lines k. cbn. now rewrite app_nil_r.
    - exists []. split; [| split]; try constructor.
      intros lines k. cbn. now rewrite app_nil_r. }
  destruct Huri as (part & Hpc & Hpi & Hpart).
  unfold add_metadata. cbv zeta.
  exists ([creator_ref_line a; license_line]
            ++ (if truthy_list (nanopub_types a) then [types_line a] else [])
            ++ (if truthy_str (introduces_uri a) then [introduces_line a] else [])
            ++ (if truthy (supersedes a) then [supersedes_line a] else [])
            ++ part ++ [created_at_line]).
  split; [| split].
  - forall_list; try assumption;
      unfold creator_ref_line, license_line, types_line, introduces_line,
        supersedes_line, created_at_line;
      repeat first [apply Hc | apply continues_app | (split; reflexivity)].
  - forall_list; try assumption; reflexivity.
  - intros lines. rewrite Hpart. cbn [rbind].
    destruct (truthy_list (nanopub_types a));
      destruct (truthy_str (introduces_uri a));
      destruct (truthy (supersedes a)); cbn [app];
      rewrite <- ?app_assoc; reflexivity.
Qed.

Lemma pubinfo_lines_structure :
  exists rest mid,
    preamble a = Ok ((sub_prefix a +:+ ":pubinfo {") :: rest)
    /\ Forall continues mid
    /\ Forall (fun l => Str.startswith l "  <" = false) mid
    /\ pubinfo_lines timestamp a
       = Ok (((sub_prefix a +:+ ":pubinfo {") :: rest)
               ++ (created_line timestamp :: mid ++ closing_lines a) ++ ["}"]).
Proof.
  destruct add_is_part_of_label_ok as (extra & Hextra & _).
  destruct add_metadata_ok as (mid & Hmc & Hmi & Hmid).
  unfold pubinfo_lines, preamble. cbv zeta.
  rewrite Hextra. cbn [rbind]. rewrite Hmid. cbn [rbind].
  set (pre := add_creator_info a _).
  assert (Hpre : exists rest, pre = (sub_prefix a +:+ ":pubinfo {") :: rest).
  { unfold pre, add_creator_info, add_wikidata_lookups.
    destruct (truthy_list (wikidata_labels a)); cbn [app]; eauto. }
  destruct Hpre as (rest & Hrest). exists rest, mid.
  rewrite <- Hrest. repeat split; try assumption.
  f_equal.
  replace (pre ++ created_line timestamp :: mid ++ [semicolon (label_body a)])
    with ((pre ++ created_line timestamp :: mid) ++ [semicolon (label_body a)])
    by (rewrite <- app_assoc; reflexivity).
  rewrite close_template_refs. cbn [app]. rewrite <- !app_assoc.
  cbn [app]. reflexivity.
Qed.

End PubinfoProperties.

Lemma created_line_continues (timestamp : string) :
  continues (created_line timestamp).
Proof.
  unfold created_line.
  repeat first [apply semicolon_continues | apply continues_app
               | (split; reflexivity)].
Qed.

Section PubinfoLayout.
Context `{PyRepr}.
Variable timestamp : string.
Variable a : PubinfoArgs.
Hypothesis usable : is_part_of_usable (is_part_of a) = true.

Lemma add_wikidata_lookups_explicit (lines : list string) :
  add_wikidata_lookups a lines = lines ++ label_section a.
Proof.
  unfold add_wikidata_lookups, label_section.
  destruct (wikidata_labels a) as [[|e es]|]; cbn [truthy_list default from_option];
    rewrite ?app_nil_r; try reflexivity.
  rewrite <- app_assoc. do 2 f_equal.
  apply map_ext. now intros [u l].
Qed.

Lemma add_is_part_of_label_explicit (lines : list string) :
  add_is_part_of_label a lines = Ok (lines ++ part_of_label_section a).
Proof.
  unfold add_is_part_of_label, py_and_get, part_of_label_section.
  unfold is_part_of_usable in usable.
  destruct (truthy (is_part_of a)) eqn:Et.
  - destruct (is_part_of a) as [| | | | | |d]; try discriminate.
    cbn [negb orb] in usable. cbn [py_get rbind py_item].
    destruct (d !! "label") as [lbl|]; cbn [default from_option id] in *.
    + destruct (truthy lbl); cbn [negb orb] in usable.
      * destruct (d !! "uri") as [uri|]; [reflexivity | discriminate].
      * destruct (d !! "uri"); cbn; now rewrite app_nil_r.
    + cbn. now rewrite app_nil_r.
  - assert (Hnone : part_of_label_section a = []).
    { unfold part_of_label_section.
      destruct (is_part_of a) as [| | | | | |d]; try reflexivity.
      cbn in Et. apply negb_false_iff, bool_decide_eq_true in Et. subst d.
      now rewrite !lookup_empty. }
    unfold part_of_label_section in Hnone. rewrite Hnone.
    cbn. now rewrite app_nil_r.
Qed.

Lemma add_metadata_explicit (lines : list string) :
  add_metadata timestamp a lines
  = Ok (lines
          ++ [created_line timestamp; creator_ref_line a; license_line]
          ++ optional_line (truthy_list (nanopub_types a)) (types_line a)
          ++ optional_line (truthy_str (introduces_uri a)) (introduces_line a)
          ++ optional_line (truthy (supersedes a)) (supersedes_line a)
          ++ part_of_predicate a
          ++ [created_at_line; semicolon (label_body a)]).
Proof.
  assert (Huri : forall (ls : list string)
                        (k : list string -> result (list string)),
             (has_uri <- py_and_get (is_part_of a) "uri" ;;
              lines' <- (if (has_uri : bool) then
                           uri <- py_item (is_part_of a) "uri" ;;
                           Ok (ls ++ [is_part_of_line uri])
                         else Ok ls) ;;
              k lines') = k (ls ++ part_of_predicate a)).
  { intros ls k. unfold py_and_get, part_of_predicate.
    unfold is_part_of_usable in usable.
    destruct (truthy (is_part_of a)) eqn:Et.
    - destruct (is_part_of a) as [| | | | | |d]; try discriminate.
      cbn [py_get rbind py_item].
      destruct (d !! "uri") as [uri|].
      + change (default PNone (Some uri)) with uri.
        destruct (truthy uri); cbn; now rewrite ?app_nil_r.
      + cbn. now rewrite app_nil_r.
    - assert (Hnone : part_of_predicate a = []).
      { unfold part_of_predicate.
        destruct (is_part_of a) as [| | | | | |d]; try reflexivity.
        cbn in Et. apply negb_false_iff, bool_decide_eq_true in Et. subst d.
        now rewrite lookup_empty. }
      unfold part_of_predicate in Hnone. rewrite Hnone.
      cbn. now rewrite app_nil_r. }
  unfold add_metadata. cbv zeta. rewrite Huri. cbn [rbind].
  unfold optional_line.
  destruct (truthy_list (nanopub_types a));
    destruct (truthy_str (introduces_uri a));
    destruct (truthy (supersedes a)); cbn [app];
    rewrite <- ?app_assoc; reflexivity.
Qed.

Lemma pubinfo_lines_layout :
  pubinfo_lines timestamp a = Ok (pubinfo_layout timestamp a).
Proof.
  unfold pubinfo_lines. cbv zeta.
  rewrite add_wikidata_lookups_explicit, add_is_part_of_label_explicit.
  cbn [rbind]. unfold add_creator_info. rewrite add_metadata_explicit.
  cbn [rbind]. f_equal.
  set (front := (((([sub_prefix a +:+ ":pubinfo {"] ++ label_section a)
                     ++ part_of_label_section a)
                    ++ [creator_line a; EmptyString])
                   ++ [created_line timestamp; creator_ref_line a; license_line]
                   ++ optional_line (truthy_list (nanopub_types a)) (types_line a)
                   ++ optional_line (truthy_str (introduces_uri a))
                        (introduces_line a)
                   ++ optional_line (truthy (supersedes a)) (supersedes_line a)
                   ++ part_of_predicate a ++ [created_at_line])).
  match goal with
  | |- context [add_template_refs a ?l] =>
      replace l with (front ++ [semicolon (label_body a)])
        by (unfold front; rewrite <- !app_assoc; reflexivity)
  end.
  rewrite close_template_refs. unfold front, pubinfo_layout.
  rewrite <- !app_assoc. reflexivity.
Qed.

End PubinfoLayout.

(** C1 (as amended). For every call of [generate_pubinfo_graph] that
    returns, the metadata block on [this:] is closed exactly once: every
    line of the block but the last ends with a semicolon and not with a
    period, and the last line ends with the period.  With a custom
    template the last line is the [nt:wasCreatedFromTemplate] triple;
    without one it is the last predicate line emitted, that is the
    pubinfo-template list if given, else the provenance-template line if
    given, else the label line ([final_line]).  The lines are the entries
    of the builder's list [lines] as it stands when it is joined: the
    lines before the block ([preamble]), the block from the creation time
    to the closing line, and the closing brace.  The call returns exactly
    when [is_part_of] is usable. *)
Theorem pubinfo_statement_closed_once `{PyRepr} (timestamp : string)
    (a : PubinfoArgs) :
  is_part_of_usable (is_part_of a) = true ->
  exists pre body,
    preamble a = Ok pre
    /\ pubinfo_lines timestamp a
       = Ok (pre ++ (created_line timestamp :: body ++ [final_line a])
               ++ ["}"])
    /\ generate_pubinfo_graph timestamp a
       = Ok (Str.join nl
               (pre ++ (created_line timestamp :: body ++ [final_line a])
                  ++ ["}"]))
    /\ Forall continues (created_line timestamp :: body)
    /\ terminates (final_line a)
    /\ terminators (created_line timestamp :: body ++ [final_line a]) = 1.
Proof.
  intros usable.
  destruct (pubinfo_lines_structure timestamp a usable)
    as (rest & mid & Hpre & Hmc & _ & Hlines).
  destruct (closing_lines_final a) as (init & Hclose & Hic & Hfinal).
  rewrite Hclose, (app_assoc mid) in Hlines.
  exists ((sub_prefix a +:+ ":pubinfo {") :: rest), (mid ++ init).
  assert (Hcont : Forall continues (created_line timestamp :: mid ++ init)).
  { constructor; [apply created_line_continues | now apply Forall_app]. }
  split; [exact Hpre |]. split; [exact Hlines |].
  split; [| split; [exact Hcont | split; [exact Hfinal |]]].
  - unfold generate_pubinfo_graph. now rewrite Hlines.
  - change (created_line timestamp :: (mid ++ init) ++ [final_line a])
      with ((created_line timestamp :: mid ++ init) ++ [final_line a]).
    now apply terminators_closed.
Qed.

(** C1 as worded fails: with a provenance template, no pubinfo templates
    and no custom template, the line that takes the period is the
    provenance-template line, not the label line. *)
Lemma final_line_not_as_claimed :
  ~ final_line_as_claimed (H := opaque_repr)
      "2024-01-01T00:00:00.000Z" provenance_only_args.
Proof.
  intros (lines & Hlines & Hlast).
  vm_compute in Hlines. injection Hlines as <-.
  vm_compute in Hlast. discriminate Hlast.
Qed.


(** ** The assembled document *)

Lemma ends_in_chr (c : ascii) : ends_in c (chr c).
Proof. now exists EmptyString. Qed.

Lemma ends_in_app (c : ascii) (p s : string) : ends_in c s -> ends_in c (p +:+ s).
Proof. intros [b ->]. exists (p +:+ b). now rewrite app_assoc_s. Qed.

Lemma ends_in_cons (c x : ascii) (s : string) :
  ends_in c s -> ends_in c (String x s).
Proof. intros [b ->]. now exists (String x b). Qed.

(** Walks to the last character of a text given by its parts. *)
Ltac ends_in_last :=
  repeat first [apply ends_in_chr | apply ends_in_app | apply ends_in_cons].

Lemma ends_in_join (c : ascii) (sep : string) (parts : list string) :
  parts <> [] -> Forall (ends_in c) parts -> ends_in c (Str.join sep parts).
Proof.
  intros Hne Hall. induction Hall as [|x parts Hx Hall IH]; [congruence |].
  destruct parts as [|y parts]; [exact Hx |].
  change (ends_in c (x +:+ sep +:+ Str.join sep (y :: parts))).
  apply ends_in_app, ends_in_app, IH. discriminate.
Qed.

Lemma endswith_one_char (b : string) (c y : ascii) :
  c <> y -> Str.endswith (b +:+ chr c) (chr y) = false.
Proof.
  intros Hc. induction b as [|z b IH].
  - change (EmptyString +:+ chr c) with (String c EmptyString).
    rewrite endswith_cons.
    destruct (String.eqb_spec (String c EmptyString) (chr y)) as [E|_];
      [| reflexivity].
    injection E as E. now destruct Hc.
  - change (String z b +:+ chr c) with (String z (b +:+ chr c)).
    rewrite endswith_cons, IH.
    destruct (String.eqb_spec (String z (b +:+ chr c)) (chr y)) as [E|_];
      [| reflexivity].
    injection E as _ E. destruct b; discriminate.
Qed.

Lemma block_edges_intro (s t : string) (c0 c : ascii) :
  s = String c0 t -> c0 <> LF -> ends_in c s -> c <> LF ->
  block_edges_ok s = true.
Proof.
  intros Hs Hc0 [b Hb] Hc. unfold block_edges_ok.
  assert (He : Str.endswith s nl = false)
    by (rewrite Hb; apply endswith_one_char, Hc).
  rewrite He. subst s.
  cbn [Str.startswith nl chr String.eqb negb andb].
  apply Ascii.eqb_neq in Hc0. rewrite Ascii.eqb_sym in Hc0. now rewrite Hc0.
Qed.

Lemma prefix_decl_ends (prefix uri : string) :
  ends_in "."%char (NanopubGenerator.prefix_decl prefix uri).
Proof.
  unfold NanopubGenerator.prefix_decl.
  do 4 apply ends_in_app. now exists "> ".
Qed.

Lemma prefixes_block_edges (self : NanopubGenerator.t) :
  block_edges_ok (NanopubGenerator.get_prefixes_block self) = true.
Proof.
  unfold NanopubGenerator.get_prefixes_block. cbv zeta.
  set (decls := omap _ _).
  apply (block_edges_intro _
           ("prefix this: <" +:+ NanopubGenerator.nanopub_uri self +:+ "> ."
              +:+ nl +:+ Str.join nl
                   (NanopubGenerator.prefix_decl
                      (NanopubGenerator.sub_prefix self)
                      (NanopubGenerator.nanopub_uri self +:+ "/") :: decls))
           "@"%char "."%char).
  - cbn [app]. unfold Str.join.
    cbn [String.concat NanopubGenerator.prefix_decl].
    simpl. now rewrite !app_assoc_s.
  - discriminate.
  - apply ends_in_join; [discriminate |].
    cbn [app]. do 2 (constructor; [apply prefix_decl_ends |]).
    apply Forall_forall. intros x Hx. unfold decls in Hx.
    apply list_elem_of_omap in Hx. destruct Hx as (p & _ & Hp).
    destruct (PREFIXES !! p) as [u|]; [| discriminate].
    injection Hp as <-. apply prefix_decl_ends.
  - discriminate.
Qed.

Lemma block_edges_prefixed (sp t : string) (c0 c : ascii) :
  Str.startswith sp nl = false -> c0 <> LF -> c <> LF ->
  ends_in c (sp +:+ String c0 t) ->
  block_edges_ok (sp +:+ String c0 t) = true.
Proof.
  intros Hsp Hc0 Hc He. destruct sp as [|x sp].
  - now apply (block_edges_intro _ t c0 c).
  - apply (block_edges_intro _ (sp +:+ String c0 t) x c);
      [reflexivity | | exact He | exact Hc].
    intros ->. destruct sp; discriminate Hsp.
Qed.

(** A block whose first character is a line feed starts with a blank
    line. *)
Lemma block_edges_line_feed (sp rest : string) :
  Str.startswith sp nl = true -> block_edges_ok (sp +:+ rest) = false.
Proof.
  intros Hsp. destruct sp as [|x sp]; [discriminate Hsp |].
  change (Str.startswith (String x sp) nl)
    with (Ascii.eqb LF x && Str.startswith sp EmptyString) in Hsp.
  apply andb_true_iff in Hsp. destruct Hsp as [Hx _].
  unfold block_edges_ok.
  change (Str.startswith (String x sp +:+ rest) nl)
    with (Ascii.eqb LF x && Str.startswith (sp +:+ rest) EmptyString).
  rewrite Hx. destruct (sp +:+ rest); cbn [Str.startswith negb andb];
    now rewrite andb_false_r.
Qed.

Lemma head_block_edges (sp : string) :
  Str.startswith sp nl = false ->
  block_edges_ok
    (sp +:+ ":Head {" +:+ nl
       +:+ "  this: a np:Nanopublication ;" +:+ nl
       +:+ "    np:hasAssertion " +:+ sp +:+ ":assertion ;" +:+ nl
       +:+ "    np:hasProvenance " +:+ sp +:+ ":provenance ;" +:+ nl
       +:+ "    np:hasPublicationInfo " +:+ sp +:+ ":pubinfo ." +:+ nl
       +:+ "}") = true.
Proof.
  intros Hsp.
  apply (block_edges_prefixed sp _ ":"%char "}"%char Hsp);
    [discriminate | discriminate |].
  ends_in_last.
Qed.

Lemma provenance_block_edges (sp orcid : string) :
  Str.startswith sp nl = false ->
  block_edges_ok
    (sp +:+ ":provenance {" +:+ nl
       +:+ "  " +:+ sp +:+ ":assertion prov:wasAttributedTo orcid:"
       +:+ orcid +:+ " ." +:+ nl
       +:+ "}") = true.
Proof.
  intros Hsp.
  apply (block_edges_prefixed sp _ ":"%char "}"%char Hsp);
    [discriminate | discriminate |].
  ends_in_last.
Qed.

Lemma join_snoc (sep : string) (parts : list string) (x : string) :
  exists p, Str.join sep (parts ++ [x]) = p +:+ x.
Proof.
  induction parts as [|y parts [p IH]]; [now exists EmptyString |].
  exists (y +:+ sep +:+ p). cbn [app]. unfold Str.join in *.
  destruct (parts ++ [x]) as [|z rest] eqn:E.
  - now destruct parts.
  - change (String.concat sep (y :: z :: rest))
      with (y +:+ sep +:+ String.concat sep (z :: rest)).
    rewrite IH. now rewrite !app_assoc_s.
Qed.

Lemma pubinfo_block_edges `{PyRepr} (timestamp : string) (a : PubinfoArgs) :
  Str.startswith (sub_prefix a) nl = false ->
  block_edges_ok (Str.join nl (pubinfo_layout timestamp a)) = true.
Proof.
  intros Hsp. unfold pubinfo_layout.
  set (inner := label_section a ++ _).
  assert (Hinner : exists y more, inner = y :: more).
  { unfold inner. destruct (label_section a) as [|y more]; cbn [app]; eauto.
    destruct (part_of_label_section a) as [|y more]; cbn [app]; eauto. }
  destruct Hinner as (y & more & Hinner).
  assert (Hend : ends_in "}"%char
                   (Str.join nl ([sub_prefix a +:+ ":pubinfo {"] ++ inner))).
  { unfold inner. rewrite !app_assoc.
    destruct (join_snoc nl
                (((((((((([sub_prefix a +:+ ":pubinfo {"] ++ label_section a)
                           ++ part_of_label_section a)
                          ++ [creator_line a; EmptyString])
                         ++ [created_line timestamp; creator_ref_line a;
                             license_line])
                        ++ optional_line (truthy_list (nanopub_types a))
                             (types_line a))
                       ++ optional_line (truthy_str (introduces_uri a))
                            (introduces_line a))
                      ++ optional_line (truthy (supersedes a))
                           (supersedes_line a))
                     ++ part_of_predicate a)
                    ++ [created_at_line])
                   ++ closing_lines a) "}") as [p Hp].
    exists p. exact Hp. }
  rewrite Hinner in *. cbn [app] in *.
  change (Str.join nl ((sub_prefix a +:+ ":pubinfo {") :: y :: more))
    with ((sub_prefix a +:+ ":pubinfo {") +:+ nl +:+ Str.join nl (y :: more))
    in *.
  rewrite app_assoc_s in *.
  now apply (block_edges_prefixed (sub_prefix a) _ ":"%char "}"%char Hsp).
Qed.

(** The builder raises on every [is_part_of] value that is not usable, so
    usability is the weakest condition under which it returns. *)
Lemma pubinfo_raises_unusable `{PyRepr} (timestamp : string) (a : PubinfoArgs) :
  is_part_of_usable (is_part_of a) = false ->
  exists e, generate_pubinfo_graph timestamp a = Raise e.
Proof.
  unfold is_part_of_usable. intros Hbad.
  apply orb_false_iff in Hbad. destruct Hbad as [Ht Hd].
  apply negb_false_iff in Ht.
  unfold generate_pubinfo_graph, pubinfo_lines, add_is_part_of_label, py_and_get.
  cbv zeta. rewrite Ht.
  destruct (is_part_of a) as [| | | | | |d]; try (cbn; eauto; fail).
  apply orb_false_iff in Hd. destruct Hd as [Hl Hu].
  apply negb_false_iff in Hl.
  cbn [py_get rbind]. rewrite Hl. cbn [py_item].
  destruct (d !! "uri"); [discriminate |]. cbn. eauto.
Qed.

(** ** The placeholder URI *)

Lemma take_length (n : nat) (s : string) :
  n <= String.length s -> String.length (Str.take n s) = n.
Proof.
  unfold Str.take. revert s. induction n as [|n IH]; intros s Hn.
  - now destruct s.
  - destruct s as [|c s]; simpl in *; [lia |]. rewrite IH; lia.
Qed.

Lemma length_app_s (s1 s2 : string) :
  String.length (s1 +:+ s2) = String.length s1 + String.length s2.
Proof. induction s1 as [|c s1 IH]; simpl; [reflexivity | now rewrite IH]. Qed.

(** Whatever the digest function, the placeholder is the fixed prefix
    followed by the first 43 characters of the digest of the UUID text;
    the same UUID text gives the same placeholder. *)
Lemma generate_nanopub_uri_shape (sha256_hexdigest : string -> string)
    (uuid4 : string) :
  43 <= String.length (sha256_hexdigest uuid4) ->
  generate_nanopub_uri sha256_hexdigest uuid4
  = "https://w3id.org/np/RA" +:+ Str.take 43 (sha256_hexdigest uuid4)
  /\ String.length (generate_nanopub_uri sha256_hexdigest uuid4) = 22 + 43.
Proof.
  intros Hlen. split; [reflexivity |].
  unfold generate_nanopub_uri. cbv zeta.
  rewrite length_app_s, take_length by exact Hlen. reflexivity.
Qed.

(** ** The properties on concrete inputs *)

Lemma pubinfo_statement_closed_once_example :
  exists pre body,
    preamble (H := opaque_repr) custom_template_args = Ok pre
    /\ pubinfo_lines (H := opaque_repr) "2024-01-01T00:00:00.000Z"
         custom_template_args
       = Ok (pre ++ (created_line "2024-01-01T00:00:00.000Z"
                       :: body ++ [final_line (H := opaque_repr)
                                     custom_template_args])
               ++ ["}"])
    /\ generate_pubinfo_graph (H := opaque_repr) "2024-01-01T00:00:00.000Z"
         custom_template_args
       = Ok (Str.join nl
               (pre ++ (created_line "2024-01-01T00:00:00.000Z"
                          :: body ++ [final_line (H := opaque_repr)
                                        custom_template_args])
                  ++ ["}"]))
    /\ Forall continues (created_line "2024-01-01T00:00:00.000Z" :: body)
    /\ terminates (final_line (H := opaque_repr) custom_template_args)
    /\ terminators
         (created_line "2024-01-01T00:00:00.000Z"
            :: body ++ [final_line (H := opaque_repr) custom_template_args])
       = 1.
Proof.
  apply (pubinfo_statement_closed_once (H := opaque_repr)
           "2024-01-01T00:00:00.000Z" custom_template_args).
  vm_compute. reflexivity.
Defined.


Lemma validate_required_fields_example :
  exists e,
    validate_required_fields example_config ["creator_orcid"; "title"; "abstract"]
    = Raise e
    /\ e = ValueError "Missing required fields: title, abstract".
Proof.
  destruct (validate_required_fields_spec example_config
              ["creator_orcid"; "title"; "abstract"])
    as ([_ Hraise] & Hmsg & _).
  destruct Hraise as [e He].
  - exists "title". split; [right; left; reflexivity |].
    left. vm_compute. reflexivity.
  - exists e. split; [exact He |]. apply Hmsg, He.
Defined.

Lemma wikidata_labels_namespace_example :
  NanopubGenerator.add_wikidata_label "https://example.org/entity/Q42" "Q42"
    (NanopubGenerator.init example_cells "https://w3id.org/np/RAexample")
  = NanopubGenerator.init example_cells "https://w3id.org/np/RAexample".
Proof.
  apply wikidata_labels_namespace. vm_compute. reflexivity.
Defined.


(** * Properties of the module, continued *)

(** ** Escaping: decoding, concatenation, repeated application *)

Lemma unescape_escape_char (c : ascii) (t : string) :
  unescape_from false (escape_char c +:+ t) = String c (unescape_from false t).
Proof.
  unfold escape_char.
  destruct (Ascii.eqb_spec c BACKSLASH) as [->|Hb]; [reflexivity |].
  destruct (Ascii.eqb_spec c DQUOTE) as [->|Hq]; [reflexivity |].
  destruct (Ascii.eqb_spec c LF) as [->|Hn]; [reflexivity |].
  destruct (Ascii.eqb_spec c CR) as [->|Hr]; [reflexivity |].
  cbn [chr String.append unescape_from].
  apply Ascii.eqb_neq in Hb. now rewrite Hb.
Qed.

Lemma unescape_escape_literal (text : string) :
  unescape (escape_literal text) = text.
Proof.
  rewrite escape_literal_each. unfold unescape.
  induction text as [|c text IH]; [reflexivity |].
  cbn [escape_each]. now rewrite unescape_escape_char, IH.
Qed.

Lemma escape_literal_cancel (text1 text2 : string) :
  escape_literal text1 = escape_literal text2 -> text1 = text2.
Proof.
  intros E.
  rewrite <- (unescape_escape_literal text1), <- (unescape_escape_literal text2).
  now rewrite E.
Qed.

(** X1. An escaped text can be decoded back to the text it came from, so
    [escape_literal] loses nothing: two different texts never get the
    same escaped form. *)
Theorem escape_literal_injective :
  (forall text, unescape (escape_literal text) = text)
  /\ (forall text1 text2,
        escape_literal text1 = escape_literal text2 <-> text1 = text2).
Proof.
  split; [apply unescape_escape_literal |].
  intros text1 text2. split; [apply escape_literal_cancel | now intros ->].
Qed.

(** X2. Escaping works piece by piece: the escaped form of a
    concatenation is the concatenation of the escaped forms, and the
    empty text stays empty. *)
Theorem escape_literal_app (text1 text2 : string) :
  escape_literal (text1 +:+ text2)
  = escape_literal text1 +:+ escape_literal text2
  /\ escape_literal EmptyString = EmptyString.
Proof.
  split; [| reflexivity].
  unfold escape_literal. now rewrite !replace_app.
Qed.

Lemma escape_char_length (c : ascii) :
  String.length (escape_char c) = (if is_special c then 1 else 0) + 1.
Proof.
  unfold escape_char, is_special.
  destruct (Ascii.eqb c BACKSLASH); [reflexivity |].
  destruct (Ascii.eqb c DQUOTE); [reflexivity |].
  destruct (Ascii.eqb c LF); [reflexivity |].
  destruct (Ascii.eqb c CR); reflexivity.
Qed.

Lemma escape_literal_length (text : string) :
  String.length (escape_literal text) = String.length text + specials text.
Proof.
  rewrite escape_literal_each.
  induction text as [|c text IH]; [reflexivity |].
  cbn [escape_each specials String.length].
  rewrite length_app_s, escape_char_length, IH. lia.
Qed.

Lemma escape_literal_plain (text : string) :
  specials text = 0 -> escape_literal text = text.
Proof.
  rewrite escape_literal_each.
  induction text as [|c text IH]; [reflexivity |].
  cbn [escape_each specials]. intros Hs.
  destruct (is_special c) eqn:Ec; [discriminate |].
  rewrite IH by exact Hs. unfold escape_char. unfold is_special in Ec.
  apply orb_false_iff in Ec. destruct Ec as [Ec Hr].
  apply orb_false_iff in Ec. destruct Ec as [Ec Hn].
  apply orb_false_iff in Ec. destruct Ec as [Hb Hq].
  now rewrite Hb, Hq, Hn, Hr.
Qed.

(** X3. Escaping lengthens a text by one character for each backslash,
    double quote, line feed and carriage return in it, and leaves a text
    unchanged exactly when it has none of these. *)
Theorem escape_literal_growth (text : string) :
  String.length (escape_literal text) = String.length text + specials text
  /\ (escape_literal text = text <-> specials text = 0).
Proof.
  split; [apply escape_literal_length |]. split.
  - intros E. pose proof (escape_literal_length text) as Hl.
    rewrite E in Hl. lia.
  - apply escape_literal_plain.
Qed.

(** X4. Escaping is not idempotent: applying it to an already escaped
    text changes the text again, unless the original text had no
    character to escape. *)
Theorem escape_literal_twice (text : string) :
  escape_literal (escape_literal text) = escape_literal text
  <-> specials text = 0.
Proof.
  split.
  - intros E. apply escape_literal_cancel in E.
    pose proof (escape_literal_length text) as Hl. rewrite E in Hl. lia.
  - intros Hs. now rewrite !(escape_literal_plain text Hs).
Qed.

Lemma app_inv_tail_s (s1 s2 t : string) : s1 +:+ t = s2 +:+ t -> s1 = s2.
Proof.
  revert s2. induction s1 as [|c s1 IH]; intros [|d s2] E.
  - reflexivity.
  - apply (f_equal String.length) in E. simpl in E.
    rewrite length_app_s in E. lia.
  - apply (f_equal String.length) in E. simpl in E.
    rewrite length_app_s in E. lia.
  - simpl in E. injection E as -> E. f_equal. now apply IH.
Qed.

(** X5. With the same datatype and language arguments, two different
    string values never give the same literal. *)
Theorem make_literal_injective `{PyRepr} (value1 value2 : string)
    (datatype lang : option string) :
  make_literal (PStr value1) datatype lang
  = make_literal (PStr value2) datatype lang
  <-> value1 = value2.
Proof.
  split; [| now intros ->].
  rewrite !make_literal_shape. cbn [py_str]. intros E.
  unfold dq, chr in E. simpl in E. injection E as E.
  apply app_inv_tail_s in E. now apply escape_literal_cancel.
Qed.

(** ** Validation of several field lists *)

(** X6. Validating a concatenated list of required fields succeeds
    exactly when validating each part succeeds, an empty list always
    validates, and the fields reported for the concatenation are those of
    the first part followed by those of the second. *)
Theorem validate_required_fields_app (config : gmap string pyval)
    (required1 required2 : list string) :
  (validate_required_fields config (required1 ++ required2) = Ok tt
   <-> validate_required_fields config required1 = Ok tt
       /\ validate_required_fields config required2 = Ok tt)
  /\ validate_required_fields config [] = Ok tt
  /\ List.filter (is_missing config) (required1 ++ required2)
     = List.filter (is_missing config) required1
         ++ List.filter (is_missing config) required2.
Proof.
  split; [| split; [reflexivity | apply List.filter_app]].
  unfold validate_required_fields. rewrite List.filter_app.
  destruct (List.filter (is_missing config) required1);
    destruct (List.filter (is_missing config) required2); cbn;
    split; try tauto; try discriminate; intros [? ?]; discriminate.
Qed.

(** ** The order of [sorted] *)

Lemma ltb_lt (a b : string) : String.ltb a b = true <-> String_as_OT.lt a b.
Proof.
  unfold String.ltb, String_as_OT.lt.
  change (String.compare a b) with (String_as_OT.compare a b).
  destruct (String_as_OT.compare a b); split; congruence.
Qed.

Lemma leb_le (a b : string) :
  String.leb a b = true <-> a = b \/ String_as_OT.lt a b.
Proof.
  unfold String.leb.
  change (String.compare a b) with (String_as_OT.compare a b).
  destruct (String_as_OT.compare_spec a b) as [E|E|E].
  - split; [now left | reflexivity].
  - split; [now right | reflexivity].
  - split; [discriminate |]. intros [-> | Hlt].
    + now apply (irreflexivity String_as_OT.lt) in E.
    + exfalso. apply (irreflexivity String_as_OT.lt b).
      now transitivity a.
Qed.

#[global] Instance str_le_total : Total str_le.
Proof. intros a b. apply String.leb_total. Qed.

#[global] Instance str_le_trans : Transitive str_le.
Proof.
  intros a b c. unfold str_le. rewrite !leb_le.
  intros [-> | H1] [-> | H2]; auto. right. now transitivity b.
Qed.

#[global] Instance str_le_antisym : AntiSymm (=) str_le.
Proof. intros a b. apply String.leb_antisym. Qed.

Lemma pair_le_iff (e1 e2 : string * string) :
  pair_le e1 e2
  <-> String_as_OT.lt (fst e1) (fst e2)
      \/ (fst e1 = fst e2 /\ str_le (snd e1) (snd e2)).
Proof.
  unfold pair_le, pair_leb, str_le.
  rewrite orb_true_iff, andb_true_iff, ltb_lt, String.eqb_eq. tauto.
Qed.

#[global] Instance pair_le_total : Total pair_le.
Proof.
  intros e1 e2. rewrite !pair_le_iff.
  destruct (String_as_OT.compare_spec (fst e1) (fst e2)) as [E|E|E].
  - destruct (String.leb_total (snd e1) (snd e2)); [left | right]; right; auto.
  - left. now left.
  - right. now left.
Qed.

#[global] Instance pair_le_trans : Transitive pair_le.
Proof.
  intros e1 e2 e3. rewrite !pair_le_iff.
  intros [H1 | [E1 H1]] [H2 | [E2 H2]].
  - left. now transitivity (fst e2).
  - left. now rewrite <- E2.
  - left. now rewrite E1.
  - right. split; [congruence |]. now transitivity (snd e2).
Qed.

#[global] Instance pair_le_antisym : AntiSymm (=) pair_le.
Proof.
  intros [k1 v1] [k2 v2]. rewrite !pair_le_iff. cbn.
  intros [H1 | [E1 H1]] [H2 | [E2 H2]].
  - exfalso. apply (irreflexivity String_as_OT.lt k1). now transitivity k2.
  - subst. now apply (irreflexivity String_as_OT.lt) in H1.
  - subst. now apply (irreflexivity String_as_OT.lt) in H2.
  - subst. f_equal. now apply String.leb_antisym.
Qed.

(** ** The generator's state *)

Lemma run_calls_snoc (self : NanopubGenerator.t) (calls : list call) (c : call) :
  run_calls self (calls ++ [c]) = run_call (run_calls self calls) c.
Proof. unfold run_calls. now rewrite fold_left_app. Qed.

(** X7. The mutators [add_prefix], [add_wikidata_label], [set_introduces]
    and [add_nanopub_type] never touch the configuration, the document
    URI or the sub-resource prefix, whatever series of them is called. *)
Theorem mutators_keep_identity (self : NanopubGenerator.t) (calls : list call) :
  NanopubGenerator.config (run_calls self calls) = NanopubGenerator.config self
  /\ NanopubGenerator.nanopub_uri (run_calls self calls)
     = NanopubGenerator.nanopub_uri self
  /\ NanopubGenerator.sub_prefix (run_calls self calls)
     = NanopubGenerator.sub_prefix self.
Proof.
  revert self. induction calls as [|c calls IH]; intros self; [now repeat split |].
  change (run_calls self (c :: calls)) with (run_calls (run_call self c) calls).
  destruct (IH (run_call self c)) as (-> & -> & ->).
  destruct c as [p | u l | u | t]; cbn;
    unfold NanopubGenerator.add_wikidata_label, NanopubGenerator.add_nanopub_type;
    repeat match goal with |- context [if ?b then _ else _] => destruct b end;
    now repeat split.
Qed.

Lemma add_nanopub_type_elem (self : NanopubGenerator.t) (t t' : string) :
  t' ∈ NanopubGenerator.nanopub_types (NanopubGenerator.add_nanopub_type t self)
  <-> t' = t \/ t' ∈ NanopubGenerator.nanopub_types self.
Proof.
  unfold NanopubGenerator.add_nanopub_type. case_bool_decide as Hin; cbn.
  - split; [now right | intros [-> | ?]; assumption].
  - rewrite elem_of_app, list_elem_of_singleton. tauto.
Qed.

Lemma add_nanopub_type_NoDup (self : NanopubGenerator.t) (t : string) :
  NoDup (NanopubGenerator.nanopub_types self) ->
  NoDup (NanopubGenerator.nanopub_types (NanopubGenerator.add_nanopub_type t self)).
Proof.
  intros Hnd. unfold NanopubGenerator.add_nanopub_type.
  case_bool_decide as Hin; cbn; [exact Hnd |].
  apply NoDup_app. split; [exact Hnd |]. split.
  - intros x Hx Hx'. apply list_elem_of_singleton in Hx'. now subst.
  - apply NoDup_singleton.
Qed.

Lemma run_call_types_NoDup (self : NanopubGenerator.t) (c : call) :
  NoDup (NanopubGenerator.nanopub_types self) ->
  NoDup (NanopubGenerator.nanopub_types (run_call self c)).
Proof.
  intros Hnd. destruct c as [p | u l | u | t]; cbn; try exact Hnd.
  - unfold NanopubGenerator.add_wikidata_label.
    now destruct (Str.startswith _ _).
  - now apply add_nanopub_type_NoDup.
Qed.

(** X8. The list of nanopub types never holds a value twice, whatever
    series of mutator calls follows construction; adding a type makes it
    a member and keeps the earlier members, and adding it again changes
    nothing. *)
Theorem nanopub_types_no_duplicates :
  (forall (cfg : gmap string cell) (fresh_uri : string) (calls : list call),
      NoDup (NanopubGenerator.nanopub_types
               (run_calls (NanopubGenerator.init cfg fresh_uri) calls)))
  /\ (forall (self : NanopubGenerator.t) (t t' : string),
        t' ∈ NanopubGenerator.nanopub_types
               (NanopubGenerator.add_nanopub_type t self)
        <-> t' = t \/ t' ∈ NanopubGenerator.nanopub_types self)
  /\ (forall (self : NanopubGenerator.t) (t : string),
        NanopubGenerator.add_nanopub_type t
          (NanopubGenerator.add_nanopub_type t self)
        = NanopubGenerator.add_nanopub_type t self).
Proof.
  split; [| split].
  - intros cfg fresh_uri calls.
    induction calls as [|c calls IH] using rev_ind; [constructor |].
    rewrite run_calls_snoc. now apply run_call_types_NoDup.
  - intros self t t'. apply add_nanopub_type_elem.
  - intros self t.
    assert (Hin : t ∈ NanopubGenerator.nanopub_types
                        (NanopubGenerator.add_nanopub_type t self))
      by (apply add_nanopub_type_elem; now left).
    unfold NanopubGenerator.add_nanopub_type at 1.
    now rewrite (bool_decide_eq_true_2 _ Hin).
Qed.

(** ** The Wikidata label map as a dictionary *)

Lemma dict_lookup_set_eq (d : list (string * string)) (k v : string) :
  dict_lookup (dict_set d k v) k = Some v.
Proof.
  induction d as [|[k' v'] d IH]; simpl.
  - now rewrite String.eqb_refl.
  - destruct (String.eqb k' k) eqn:E; simpl; now rewrite E.
Qed.

Lemma dict_lookup_set_ne (d : list (string * string)) (k k0 v : string) :
  k0 <> k -> dict_lookup (dict_set d k v) k0 = dict_lookup d k0.
Proof.
  intros Hne. induction d as [|[k' v'] d IH]; simpl.
  - destruct (String.eqb_spec k k0); [congruence | reflexivity].
  - destruct (String.eqb_spec k' k) as [->|Hk]; simpl.
    + destruct (String.eqb_spec k k0); [congruence | reflexivity].
    + now rewrite IH.
Qed.

Lemma dict_set_keys_order (d : list (string * string)) (k v : string) :
  map fst (dict_set d k v) = if bool_decide (k ∈ map fst d) then map fst d else map fst d ++ [k].
Proof.
  induction d as [|[k' v'] d IH]; [reflexivity |]. simpl.
  destruct (String.eqb_spec k' k) as [->|Hk]; simpl.
  - rewrite bool_decide_eq_true_2 by apply list_elem_of_here. reflexivity.
  - rewrite IH. case_bool_decide as Hin.
    + rewrite bool_decide_eq_true_2 by now apply list_elem_of_further.
      reflexivity.
    + rewrite bool_decide_eq_false_2; [reflexivity |].
      intros Hin'. apply elem_of_cons in Hin'. destruct Hin'; congruence.
Qed.

Lemma dict_set_keys_NoDup (d : list (string * string)) (k v : string) :
  NoDup (map fst d) -> NoDup (map fst (dict_set d k v)).
Proof.
  intros Hnd. rewrite dict_set_keys_order. case_bool_decide as Hin; [exact Hnd |].
  apply NoDup_app. split; [exact Hnd |]. split.
  - intros x Hx Hx'. apply list_elem_of_singleton in Hx'. now subst.
  - apply NoDup_singleton.
Qed.

(** X9. Labels behave as in a dictionary: after [add_wikidata_label] with
    a URI in the entity namespace, looking that URI up gives the label
    just passed (the last write wins) and every other URI keeps its
    label. *)
Theorem wikidata_label_last_write_wins (self : NanopubGenerator.t)
    (uri lbl : string) :
  Str.startswith uri "http://www.wikidata.org/entity/" = true ->
  dict_lookup
    (NanopubGenerator.wikidata_labels
       (NanopubGenerator.add_wikidata_label uri lbl self)) uri
  = Some lbl
  /\ forall other,
       other <> uri ->
       dict_lookup
         (NanopubGenerator.wikidata_labels
            (NanopubGenerator.add_wikidata_label uri lbl self)) other
       = dict_lookup (NanopubGenerator.wikidata_labels self) other.
Proof.
  intros Hns. unfold NanopubGenerator.add_wikidata_label.
  unfold NanopubGenerator.WIKIDATA_ENTITY. rewrite Hns. cbn. split.
  - apply dict_lookup_set_eq.
  - intros other Hne. now apply dict_lookup_set_ne.
Qed.

(** X10. The Wikidata label map keeps one entry per URI and keeps the
    order of first insertion: whatever series of mutator calls follows
    construction, no URI occurs twice among its keys; a call for a URI
    already present leaves the sequence of keys as it was, and a call
    for a new URI of the namespace puts it last. *)
Theorem wikidata_labels_insertion_order :
  (forall (cfg : gmap string cell) (fresh_uri : string) (calls : list call),
      NoDup (map fst
               (NanopubGenerator.wikidata_labels
                  (run_calls (NanopubGenerator.init cfg fresh_uri) calls))))
  /\ (forall (self : NanopubGenerator.t) (uri lbl : string),
        map fst
          (NanopubGenerator.wikidata_labels
             (NanopubGenerator.add_wikidata_label uri lbl self))
        = if Str.startswith uri "http://www.wikidata.org/entity/"
               && negb (bool_decide
                          (uri ∈ map fst (NanopubGenerator.wikidata_labels self)))
          then map fst (NanopubGenerator.wikidata_labels self) ++ [uri]
          else map fst (NanopubGenerator.wikidata_labels self)).
Proof.
  split.
  - intros cfg fresh_uri calls.
    induction calls as [|c calls IH] using rev_ind; [constructor |].
    rewrite run_calls_snoc.
    destruct c as [p | u l | u | t]; cbn; try exact IH.
    + unfold NanopubGenerator.add_wikidata_label.
      destruct (Str.startswith _ _); [| exact IH].
      cbn. now apply dict_set_keys_NoDup.
    + unfold NanopubGenerator.add_nanopub_type.
      now destruct (bool_decide _).
  - intros self uri lbl. unfold NanopubGenerator.add_wikidata_label.
    unfold NanopubGenerator.WIKIDATA_ENTITY.
    destruct (Str.startswith uri _); cbn; [| reflexivity].
    rewrite dict_set_keys_order. now destruct (bool_decide _).
Qed.

(** ** Prefix declarations *)

Lemma format_prefix_lines_entries (prefixes : gmap string string) :
  format_prefix_lines prefixes
  = map prefix_entry_line (merge_sort pair_le (map_to_list prefixes)).
Proof.
  unfold format_prefix_lines. apply map_ext. now intros [p u].
Qed.

Lemma strict_by_key (l : list (string * string)) :
  StronglySorted pair_le l -> NoDup (map fst l) ->
  StronglySorted (fun e1 e2 => String.ltb (fst e1) (fst e2) = true) l.
Proof.
  induction 1 as [|x l Hs IH Hall]; intros Hnd; [constructor |].
  cbn in Hnd. apply NoDup_cons in Hnd. destruct Hnd as [Hx Hnd].
  constructor; [now apply IH |].
  apply List.Forall_forall. intros y Hy.
  rewrite List.Forall_forall in Hall. specialize (Hall y Hy).
  apply pair_le_iff in Hall. destruct Hall as [Hlt | [E _]].
  - now apply ltb_lt.
  - exfalso. apply Hx. rewrite E. apply list_elem_of_In.
    now apply in_map.
Qed.

(** X11. [format_prefixes] emits one declaration line per entry of its
    argument and nothing else, in strictly ascending order of the prefix
    names; an empty mapping gives the empty text. *)
Theorem format_prefixes_sorted (prefixes : gmap string string) :
  (exists entries,
      format_prefixes prefixes = Str.join nl (map prefix_entry_line entries)
      /\ entries ≡ₚ map_to_list prefixes
      /\ StronglySorted
           (fun e1 e2 => String.ltb (fst e1) (fst e2) = true) entries
      /\ length entries = size prefixes)
  /\ format_prefixes ∅ = EmptyString.
Proof.
  split.
  - exists (merge_sort pair_le (map_to_list prefixes)).
    assert (Hperm : merge_sort pair_le (map_to_list prefixes)
                    ≡ₚ map_to_list prefixes) by apply merge_sort_Permutation.
    split; [| split; [exact Hperm | split]].
    + unfold format_prefixes. now rewrite format_prefix_lines_entries.
    + apply strict_by_key.
      * apply StronglySorted_merge_sort; apply _.
      * rewrite Hperm. apply (NoDup_fst_map_to_list prefixes).
    + rewrite Hperm. apply length_map_to_list.
  - unfold format_prefixes, format_prefix_lines.
    now rewrite map_to_list_empty.
Qed.

Section KnownPrefixes.
Variable table : gmap string string.

Let entry_of (p : string) : option (string * string) :=
  (fun u => (p, u)) <$> table !! p.

Lemma entries_elem (l : list string) (e : string * string) :
  e ∈ omap entry_of l <-> fst e ∈ l /\ table !! fst e = Some (snd e).
Proof.
  rewrite list_elem_of_omap. unfold entry_of. destruct e as [p u]. cbn. split.
  - intros (q & Hq & Hf). destruct (table !! q) as [u'|] eqn:E; [| discriminate].
    cbn in Hf. injection Hf as -> ->. now split.
  - intros [Hp Hu]. exists p. split; [exact Hp |]. now rewrite Hu.
Qed.

Lemma entries_NoDup (l : list string) : NoDup l -> NoDup (omap entry_of l).
Proof.
  induction 1 as [|p l Hp Hnd IH]; [constructor |]. cbn.
  destruct (entry_of p) as [e|] eqn:E; [| exact IH].
  constructor; [| exact IH].
  intros He. apply entries_elem in He. destruct He as [He _].
  unfold entry_of in E. destruct (table !! p); [| discriminate].
  cbn in E. injection E as <-. now apply Hp.
Qed.

Lemma entries_sorted (l : list string) :
  StronglySorted str_le l -> NoDup l -> StronglySorted pair_le (omap entry_of l).
Proof.
  induction 1 as [|p l Hs IH Hall]; intros Hnd; [constructor |].
  apply NoDup_cons in Hnd. destruct Hnd as [Hp Hnd]. cbn.
  destruct (entry_of p) as [e|] eqn:E; [| now apply IH].
  constructor; [now apply IH |].
  unfold entry_of in E. destruct (table !! p) as [u|]; [| discriminate].
  cbn in E. injection E as <-.
  apply List.Forall_forall. intros e He. apply list_elem_of_In in He.
  apply entries_elem in He. destruct He as [He _].
  rewrite List.Forall_forall in Hall.
  assert (Hle : str_le p (fst e)) by (apply Hall; now apply list_elem_of_In).
  apply pair_le_iff. left. cbn.
  apply leb_le in Hle. destruct Hle as [-> | Hlt]; [now destruct Hp | exact Hlt].
Qed.

Lemma entries_lines (l : list string) :
  omap (fun p => NanopubGenerator.prefix_decl p <$> table !! p) l
  = map prefix_entry_line (omap entry_of l).
Proof.
  induction l as [|p l IH]; [reflexivity |]. cbn. unfold entry_of at 1.
  destruct (table !! p); cbn; now rewrite IH.
Qed.

Lemma known_entries (used : gset string) :
  omap entry_of (merge_sort str_le (elements used))
  = merge_sort pair_le
      (map_to_list (filter (fun e : string * string => fst e ∈ used) table)).
Proof.
  assert (Hnd : NoDup (merge_sort str_le (elements used))).
  { rewrite merge_sort_Permutation. apply NoDup_elements. }
  apply (Sorted_unique pair_le).
  - apply StronglySorted_Sorted, entries_sorted; [| exact Hnd].
    apply StronglySorted_merge_sort; apply _.
  - apply Sorted_merge_sort. apply _.
  - rewrite (merge_sort_Permutation pair_le).
    apply NoDup_Permutation.
    + now apply entries_NoDup.
    + apply NoDup_map_to_list.
    + intros [p u]. rewrite entries_elem, elem_of_map_to_list.
      rewrite map_lookup_filter_Some. cbn.
      rewrite merge_sort_Permutation, elem_of_elements. tauto.
Qed.

End KnownPrefixes.

Lemma prefixes_block_lines (self : NanopubGenerator.t) :
  NanopubGenerator.get_prefixes_block self
  = Str.join nl
      ([ prefix_entry_line ("this", NanopubGenerator.nanopub_uri self);
         prefix_entry_line
           (NanopubGenerator.sub_prefix self,
            NanopubGenerator.nanopub_uri self +:+ "/") ]
         ++ format_prefix_lines
              (used_known (NanopubGenerator.used_prefixes self))).
Proof.
  unfold NanopubGenerator.get_prefixes_block. cbv zeta.
  rewrite (entries_lines PREFIXES), (known_entries PREFIXES).
  rewrite format_prefix_lines_entries. reflexivity.
Qed.

(** X12. The prefixes block is the declaration of [this], the declaration
    of the sub-resource prefix, and then what [format_prefixes] emits for
    the entries of the fixed prefix table whose name is in the used set:
    a used name that the table does not know is not declared, and a known
    name that is not used is not declared either. *)
Theorem get_prefixes_block_format (self : NanopubGenerator.t) :
  NanopubGenerator.get_prefixes_block self
  = Str.join nl
      ([ "@prefix this: <" +:+ NanopubGenerator.nanopub_uri self +:+ "> .";
         "@prefix " +:+ NanopubGenerator.sub_prefix self +:+ ": <"
           +:+ (NanopubGenerator.nanopub_uri self +:+ "/") +:+ "> ." ]
         ++ format_prefix_lines
              (used_known (NanopubGenerator.used_prefixes self)))
  /\ forall p u,
       used_known (NanopubGenerator.used_prefixes self) !! p = Some u
       <-> PREFIXES !! p = Some u /\ p ∈ NanopubGenerator.used_prefixes self.
Proof.
  split; [apply prefixes_block_lines |].
  intros p u. unfold used_known. now rewrite map_lookup_filter_Some.
Qed.

Lemma used_known_add (used : gset string) (p : string) :
  PREFIXES !! p = None \/ p ∈ used ->
  used_known (used ∪ {[p]}) = used_known used.
Proof.
  intros Hp. apply map_eq. intros q. apply option_eq. intros u.
  unfold used_known. rewrite !map_lookup_filter_Some. cbn [fst].
  rewrite elem_of_union, elem_of_singleton. split; [| tauto].
  intros [Hq [Hin | ->]]; [tauto |].
  destruct Hp as [Hn | Hin]; [congruence | tauto].
Qed.

(** X13. Registering a prefix that the fixed table does not know, or one
    that is already used, leaves the prefixes block as it was. *)
Theorem add_prefix_ignored (prefix : string) (self : NanopubGenerator.t) :
  PREFIXES !! prefix = None \/ prefix ∈ NanopubGenerator.used_prefixes self ->
  NanopubGenerator.get_prefixes_block (NanopubGenerator.add_prefix prefix self)
  = NanopubGenerator.get_prefixes_block self.
Proof.
  intros Hp. rewrite !prefixes_block_lines. cbn.
  now rewrite used_known_add.
Qed.

Lemma used_prefixes_grow (self : NanopubGenerator.t) (c : call) :
  NanopubGenerator.used_prefixes self
  ⊆ NanopubGenerator.used_prefixes (run_call self c).
Proof.
  destruct c as [p | u l | u | t]; cbn; try set_solver.
  - unfold NanopubGenerator.add_wikidata_label.
    now destruct (Str.startswith _ _).
  - unfold NanopubGenerator.add_nanopub_type. now destruct (bool_decide _).
Qed.

Lemma used_prefixes_after (self : NanopubGenerator.t) (calls : list call)
    (p : string) :
  p ∈ NanopubGenerator.used_prefixes self \/ In (AddPrefix p) calls ->
  p ∈ NanopubGenerator.used_prefixes (run_calls self calls).
Proof.
  induction calls as [|c calls IH] using rev_ind.
  - intros [Hp | []]. exact Hp.
  - rewrite run_calls_snoc. intros [Hp | Hin].
    + apply used_prefixes_grow, IH. now left.
    + apply in_app_or in Hin. destruct Hin as [Hin | [-> | []]].
      * apply used_prefixes_grow, IH. now right.
      * cbn. set_solver.
Qed.

(** X14. The prefixes block is the declaration of [this], the
    declaration of the sub-resource prefix and the declarations of the
    used prefixes, and a prefix of the fixed table is among the latter
    whenever it is one of the ten baseline prefixes or was registered by
    [add_prefix], whatever other mutator calls were made after
    construction: prefixes are never unregistered. *)
Theorem known_prefix_declared (cfg : gmap string cell) (fresh_uri : string)
    (calls : list call) (p u : string) :
  PREFIXES !! p = Some u ->
  In p BASELINE_PREFIXES \/ In (AddPrefix p) calls ->
  exists declarations,
    NanopubGenerator.get_prefixes_block
      (run_calls (NanopubGenerator.init cfg fresh_uri) calls)
    = Str.join nl
        ([ "@prefix this: <"
             +:+ NanopubGenerator.nanopub_uri
                   (run_calls (NanopubGenerator.init cfg fresh_uri) calls)
             +:+ "> .";
           "@prefix "
             +:+ NanopubGenerator.sub_prefix
                   (run_calls (NanopubGenerator.init cfg fresh_uri) calls)
             +:+ ": <"
             +:+ (NanopubGenerator.nanopub_uri
                    (run_calls (NanopubGenerator.init cfg fresh_uri) calls)
                    +:+ "/")
             +:+ "> ." ]
           ++ declarations)
    /\ declarations
       = format_prefix_lines
           (used_known
              (NanopubGenerator.used_prefixes
                 (run_calls (NanopubGenerator.init cfg fresh_uri) calls)))
    /\ In ("@prefix " +:+ p +:+ ": <" +:+ u +:+ "> .") declarations.
Proof.
  intros Hu Hp.
  assert (Hused : p ∈ NanopubGenerator.used_prefixes
                        (run_calls (NanopubGenerator.init cfg fresh_uri) calls)).
  { apply used_prefixes_after. destruct Hp as [Hb | Hc]; [left | now right].
    change (NanopubGenerator.used_prefixes (NanopubGenerator.init cfg fresh_uri))
      with (list_to_set BASELINE_PREFIXES : gset string).
    apply elem_of_list_to_set, list_elem_of_In. exact Hb. }
  eexists. split; [apply prefixes_block_lines |]. split; [reflexivity |].
  rewrite format_prefix_lines_entries.
  change ("@prefix " +:+ p +:+ ": <" +:+ u +:+ "> .")
    with (prefix_entry_line (p, u)).
  apply in_map, list_elem_of_In.
  rewrite merge_sort_Permutation. apply elem_of_map_to_list.
  unfold used_known. apply map_lookup_filter_Some. now split.
Qed.

(** ** The pubinfo graph, section by section *)

(** X15. The sections of the pubinfo graph come in a fixed order: the
    opening line; the Wikidata label triples and a blank line, if there
    are labels; the [is_part_of] label triple and a blank line, if it has
    a label; the creator-name triple and a blank line; then, on [this:],
    creation time, creator, licence, the optional types, introduced URI,
    superseded URI and part-of reference, the creating tool, the label,
    the template references, and the closing brace.  The terminator
    rewriting of the builder gives the same lines as writing every
    predicate with its final terminator at once. *)
Theorem pubinfo_graph_layout `{PyRepr} (timestamp : string) (a : PubinfoArgs) :
  is_part_of_usable (is_part_of a) = true ->
  generate_pubinfo_graph timestamp a
  = Ok (Str.join nl
          ([sub_prefix a +:+ ":pubinfo {"]
             ++ label_section a
             ++ part_of_label_section a
             ++ [creator_line a; EmptyString]
             ++ [created_line timestamp; creator_ref_line a; license_line]
             ++ optional_line (truthy_list (nanopub_types a)) (types_line a)
             ++ optional_line (truthy_str (introduces_uri a)) (introduces_line a)
             ++ optional_line (truthy (supersedes a)) (supersedes_line a)
             ++ part_of_predicate a
             ++ [created_at_line]
             ++ closing_lines a
             ++ ["}"])).
Proof.
  intros usable. unfold generate_pubinfo_graph.
  now rewrite (pubinfo_lines_layout timestamp a usable).
Qed.

(** X16. What the builder does with [is_part_of]: a truthy value that is
    not a record makes it raise [AttributeError]; a record with a
    non-empty label and no [uri] key makes it raise [KeyError] for
    [uri]; every other value is accepted and a graph is returned.  These
    three cases cover all values. *)
Theorem pubinfo_graph_errors `{PyRepr} (timestamp : string) (a : PubinfoArgs) :
  (truthy (is_part_of a) = true ->
   (forall d, is_part_of a <> PDict d) ->
   generate_pubinfo_graph timestamp a = Raise (AttributeError "get"))
  /\ (forall d,
        is_part_of a = PDict d ->
        truthy (default PNone (d !! "label")) = true ->
        d !! "uri" = None ->
        generate_pubinfo_graph timestamp a = Raise (KeyError "uri"))
  /\ (is_part_of_usable (is_part_of a) = true ->
      exists graph, generate_pubinfo_graph timestamp a = Ok graph)
  /\ (is_part_of_usable (is_part_of a) = false ->
      (truthy (is_part_of a) = true /\ forall d, is_part_of a <> PDict d)
      \/ exists d,
           is_part_of a = PDict d
           /\ truthy (default PNone (d !! "label")) = true
           /\ d !! "uri" = None).
Proof.
  split; [| split; [| split]].
  - intros Ht Hnd.
    unfold generate_pubinfo_graph, pubinfo_lines, add_is_part_of_label, py_and_get.
    cbv zeta. rewrite Ht.
    destruct (is_part_of a) as [| | | | | |d]; try reflexivity.
    now destruct (Hnd d).
  - intros d Hd Hl Hu.
    assert (Ht : truthy (PDict d) = true).
    { destruct (d !! "label") as [lbl|] eqn:E; [| discriminate].
      exact (dict_not_empty d "label" lbl E). }
    unfold generate_pubinfo_graph, pubinfo_lines, add_is_part_of_label, py_and_get.
    cbv zeta. rewrite Hd, Ht. cbn [py_get rbind]. rewrite Hl.
    cbn [py_item]. now rewrite Hu.
  - intros usable. unfold generate_pubinfo_graph.
    rewrite (pubinfo_lines_layout timestamp a usable). cbn. eauto.
  - unfold is_part_of_usable. intros Hbad.
    apply orb_false_iff in Hbad. destruct Hbad as [Ht Hd].
    apply negb_false_iff in Ht.
    destruct (is_part_of a) as [| | | | | |d] eqn:E;
      try (left; split; [exact Ht | intros d'; discriminate]).
    right. exists d. apply orb_false_iff in Hd. destruct Hd as [Hl Hu].
    apply negb_false_iff in Hl. split; [reflexivity |]. split; [exact Hl |].
    now destruct (d !! "uri").
Qed.

(** X17. Wikidata labels are emitted first and in the order the
    dictionary holds them: with at least one label, the graph opens with
    its opening line, one label triple per entry in order, and a blank
    line. *)
Theorem wikidata_triples_in_order `{PyRepr} (timestamp : string)
    (a : PubinfoArgs) (e : string * string) (es : list (string * string)) :
  wikidata_labels a = Some (e :: es) ->
  is_part_of_usable (is_part_of a) = true ->
  exists rest,
    generate_pubinfo_graph timestamp a
    = Ok (Str.join nl
            ((sub_prefix a +:+ ":pubinfo {")
               :: map (fun e =>
                         "  <" +:+ fst e +:+ "> nt:hasLabelFromApi "
                           +:+ make_literal (PStr (snd e)) None None +:+ " .")
                    (e :: es)
               ++ EmptyString :: rest)).
Proof.
  intros Hwd usable. eexists.
  unfold generate_pubinfo_graph.
  rewrite (pubinfo_lines_layout timestamp a usable). cbn [rbind].
  unfold pubinfo_layout, label_section. rewrite Hwd.
  cbn [app]. rewrite <- app_assoc. cbn [app]. reflexivity.
Qed.

(** X18. An [is_part_of] record with a non-empty [uri] and no (or an
    empty) label adds the [isPartOf] predicate to the metadata block and
    no label triple: the creator-name triple directly follows the
    Wikidata label section. *)
Theorem part_of_without_label `{PyRepr} (timestamp : string) (a : PubinfoArgs)
    (d : gmap string pyval) (uri : pyval) :
  is_part_of a = PDict d ->
  d !! "uri" = Some uri ->
  truthy uri = true ->
  truthy (default PNone (d !! "label")) = false ->
  exists before after,
    generate_pubinfo_graph timestamp a
    = Ok (Str.join nl
            (([sub_prefix a +:+ ":pubinfo {"] ++ label_section a
                ++ [creator_line a; EmptyString])
               ++ (created_line timestamp :: before)
               ++ [is_part_of_line uri]
               ++ after)).
Proof.
  intros Hd Hu Ht Hl.
  assert (usable : is_part_of_usable (is_part_of a) = true).
  { rewrite Hd. unfold is_part_of_usable. rewrite Hl, Hu.
    now rewrite !orb_true_r. }
  assert (Hnolabel : part_of_label_section a = []).
  { unfold part_of_label_section. rewrite Hd, Hu.
    destruct (d !! "label") as [lbl|]; [| reflexivity].
    cbn in Hl. now rewrite Hl. }
  assert (Hpart : part_of_predicate a = [is_part_of_line uri]).
  { unfold part_of_predicate. now rewrite Hd, Hu, Ht. }
  exists ([creator_ref_line a; license_line]
            ++ optional_line (truthy_list (nanopub_types a)) (types_line a)
            ++ optional_line (truthy_str (introduces_uri a)) (introduces_line a)
            ++ optional_line (truthy (supersedes a)) (supersedes_line a)),
    ([created_at_line] ++ closing_lines a ++ ["}"]).
  unfold generate_pubinfo_graph.
  rewrite (pubinfo_lines_layout timestamp a usable). cbn [rbind].
  unfold pubinfo_layout. rewrite Hnolabel, Hpart.
  do 2 f_equal. cbn [app]. rewrite <- !app_assoc. cbn [app].
  reflexivity.
Qed.

(** ** Assembly: the document, its failures and where values are read *)

Lemma generate_args_eq (self self' : NanopubGenerator.t) (h' : store) :
  NanopubGenerator.pubinfo_args self' h'
    (NanopubGenerator.config_get self "creator_orcid"
       (SStr "0000-0000-0000-0000"))
    (NanopubGenerator.config_get self "creator_name" (SStr "Unknown"))
    (NanopubGenerator.config_get self' "label" (SStr "Nanopublication"))
    (NanopubGenerator.config_get self "template_uri" SNone)
    (NanopubGenerator.config_get self "supersedes" SNone)
    (NanopubGenerator.config_get self "is_part_of" SNone)
  = generate_args self self' h'.
Proof.
  unfold NanopubGenerator.pubinfo_args, generate_args,
    NanopubGenerator.or_none, NanopubGenerator.config_get, entry.
  destruct (NanopubGenerator.nanopub_types self'),
    (NanopubGenerator.wikidata_labels self'); reflexivity.
Qed.

Lemma generate_returns `{PyRepr} `{NanopubGenerator.AssertionProducer}
    (timestamp : string) (self : NanopubGenerator.t) (h : store)
    (assertion : string) (self' : NanopubGenerator.t) (h' : store)
    (pubinfo : string) :
  NanopubGenerator.generate_assertion self h = Ok (assertion, self', h') ->
  generate_pubinfo_graph timestamp (generate_args self self' h') = Ok pubinfo ->
  NanopubGenerator.generate timestamp self h
  = Ok (NanopubGenerator.get_prefixes_block self' +:+ nl +:+ nl
          +:+ generate_head_graph (NanopubGenerator.sub_prefix self')
          +:+ nl +:+ nl +:+ assertion +:+ nl +:+ nl
          +:+ generate_provenance_graph (NanopubGenerator.sub_prefix self')
                (creator_orcid (generate_args self self' h'))
          +:+ nl +:+ nl +:+ pubinfo +:+ nl).
Proof.
  intros Hext Hpub. unfold NanopubGenerator.generate. cbv zeta.
  rewrite Hext. cbn [rbind]. rewrite generate_args_eq, Hpub. reflexivity.
Qed.

Lemma generate_producer_raises `{PyRepr} `{NanopubGenerator.AssertionProducer}
    (timestamp : string) (self : NanopubGenerator.t) (h : store) (e : exn) :
  NanopubGenerator.generate_assertion self h = Raise e ->
  NanopubGenerator.generate timestamp self h = Raise e.
Proof.
  intros Hext. unfold NanopubGenerator.generate. cbv zeta. now rewrite Hext.
Qed.

Lemma generate_pubinfo_raises `{PyRepr} `{NanopubGenerator.AssertionProducer}
    (timestamp : string) (self : NanopubGenerator.t) (h : store)
    (assertion : string) (self' : NanopubGenerator.t) (h' : store) (e : exn) :
  NanopubGenerator.generate_assertion self h = Ok (assertion, self', h') ->
  generate_pubinfo_graph timestamp (generate_args self self' h') = Raise e ->
  NanopubGenerator.generate timestamp self h = Raise e.
Proof.
  intros Hext Hpub. unfold NanopubGenerator.generate. cbv zeta.
  rewrite Hext. cbn [rbind]. now rewrite generate_args_eq, Hpub.
Qed.

Lemma generate_layout `{PyRepr} `{NanopubGenerator.AssertionProducer}
    (timestamp : string) (self : NanopubGenerator.t) (h : store)
    (assertion : string) (self' : NanopubGenerator.t) (h' : store) :
  NanopubGenerator.generate_assertion self h = Ok (assertion, self', h') ->
  is_part_of_usable (is_part_of (generate_args self self' h')) = true ->
  pubinfo_lines timestamp (generate_args self self' h')
  = Ok (pubinfo_layout timestamp (generate_args self self' h'))
  /\ exists front,
       NanopubGenerator.generate timestamp self h
       = Ok (front
               +:+ Str.join nl
                     (pubinfo_layout timestamp (generate_args self self' h'))
               +:+ nl).
Proof.
  intros Hext Hu.
  pose proof (pubinfo_lines_layout timestamp (generate_args self self' h') Hu)
    as Hlines.
  split; [exact Hlines |].
  assert (Hpub : generate_pubinfo_graph timestamp (generate_args self self' h')
                 = Ok (Str.join nl
                         (pubinfo_layout timestamp
                            (generate_args self self' h')))).
  { unfold generate_pubinfo_graph. now rewrite Hlines. }
  rewrite (generate_returns timestamp self h assertion self' h' _ Hext Hpub).
  exists (NanopubGenerator.get_prefixes_block self' +:+ nl +:+ nl
            +:+ generate_head_graph (NanopubGenerator.sub_prefix self')
            +:+ nl +:+ nl +:+ assertion +:+ nl +:+ nl
            +:+ generate_provenance_graph (NanopubGenerator.sub_prefix self')
                  (creator_orcid (generate_args self self' h'))
            +:+ nl +:+ nl).
  now rewrite !app_assoc_s.
Qed.

Lemma prefixes_block_entries (self : NanopubGenerator.t) :
  exists entries,
    NanopubGenerator.get_prefixes_block self
    = Str.join nl
        ([ "@prefix this: <" +:+ NanopubGenerator.nanopub_uri self +:+ "> .";
           "@prefix " +:+ NanopubGenerator.sub_prefix self +:+ ": <"
             +:+ (NanopubGenerator.nanopub_uri self +:+ "/") +:+ "> ." ]
           ++ map prefix_entry_line entries)
    /\ StronglySorted
         (fun e1 e2 => String.ltb (fst e1) (fst e2) = true) entries
    /\ forall p u,
         In (p, u) entries
         <-> PREFIXES !! p = Some u /\ p ∈ NanopubGenerator.used_prefixes self.
Proof.
  set (known := used_known (NanopubGenerator.used_prefixes self)).
  exists (merge_sort pair_le (map_to_list known)).
  assert (Hperm : merge_sort pair_le (map_to_list known) ≡ₚ map_to_list known)
    by apply merge_sort_Permutation.
  split; [| split].
  - rewrite prefixes_block_lines, format_prefix_lines_entries. reflexivity.
  - apply strict_by_key.
    + apply StronglySorted_merge_sort; apply _.
    + rewrite Hperm. apply (NoDup_fst_map_to_list known).
  - intros p u. rewrite <- list_elem_of_In, Hperm, elem_of_map_to_list.
    unfold known, used_known. now rewrite map_lookup_filter_Some.
Qed.

(** C3 as worded fails: the configuration of the end-to-end example with
    an [is_part_of] record that has a label and no uri, and the producer
    that returns a one-triple block and changes nothing.  The producer
    returns a block without blank edges, and [generate] raises
    [KeyError] instead of returning a document. *)
Lemma five_blocks_not_as_claimed :
  ~ five_blocks_as_claimed (H := opaque_repr) (H0 := quiet_producer)
      "2024-01-01T00:00:00.000Z" part_of_cells
      "https://w3id.org/np/RAexample" label_only_store.
Proof.
  intros Hclaim.
  destruct (Hclaim one_triple_block
              (NanopubGenerator.init part_of_cells
                 "https://w3id.org/np/RAexample")
              label_only_store)
    as (prefixes & head & provenance & pubinfo & Hdoc & _).
  - reflexivity.
  - vm_compute. reflexivity.
  - rewrite (generate_pubinfo_raises (H := opaque_repr) (H0 := quiet_producer)
               "2024-01-01T00:00:00.000Z" _ _ one_triple_block
               (NanopubGenerator.init part_of_cells
                  "https://w3id.org/np/RAexample")
               label_only_store (KeyError "uri")) in Hdoc.
    + discriminate Hdoc.
    + reflexivity.
    + vm_compute. reflexivity.
Qed.

(** When the sub-resource prefix the producer leaves starts with a line
    feed, the Head graph starts with a blank line and three line feeds
    follow the prefixes block: the last condition of the amended C3
    cannot be dropped. *)
Lemma sub_prefix_line_feed_breaks_head `{PyRepr}
    `{NanopubGenerator.AssertionProducer}
    (timestamp : string) (self : NanopubGenerator.t) (h : store)
    (assertion : string) (self' : NanopubGenerator.t) (h' : store) :
  NanopubGenerator.generate_assertion self h = Ok (assertion, self', h') ->
  is_part_of_usable
    (deref h' (entry (NanopubGenerator.config self) "is_part_of" SNone))
  = true ->
  Str.startswith (NanopubGenerator.sub_prefix self') nl = true ->
  exists rest,
    NanopubGenerator.generate timestamp self h
    = Ok (NanopubGenerator.get_prefixes_block self'
            +:+ nl +:+ nl +:+ nl +:+ rest).
Proof.
  intros Hext Hu Hsp.
  assert (Hpub : generate_pubinfo_graph timestamp (generate_args self self' h')
                 = Ok (Str.join nl
                         (pubinfo_layout timestamp
                            (generate_args self self' h')))).
  { unfold generate_pubinfo_graph.
    now rewrite (pubinfo_lines_layout timestamp (generate_args self self' h') Hu). }
  rewrite (generate_returns timestamp self h assertion self' h' _ Hext Hpub).
  unfold generate_head_graph.
  destruct (NanopubGenerator.sub_prefix self') as [|x sp]; [discriminate Hsp |].
  change (Str.startswith (String x sp) nl)
    with (Ascii.eqb LF x && Str.startswith sp EmptyString) in Hsp.
  apply andb_true_iff in Hsp. destruct Hsp as [Hx _].
  apply Ascii.eqb_eq in Hx. subst x.
  eexists. rewrite !app_assoc_s. reflexivity.
Qed.

(** C3 (as amended). When the assertion producer returns a graph block
    that is not empty and has no blank line at either end, the
    [is_part_of] entry the configuration had before the producer ran
    holds, once the producer has run, a value the pubinfo builder
    accepts, and the sub-resource prefix the producer leaves does not
    start with a line feed, then [generate] returns five blocks, one
    blank line apart, and one line feed at the end.  The blocks are: the
    declarations of [this] and of the sub-resource prefix followed by the
    declarations of the used prefixes the fixed table knows, in
    ascending order of their names; the Head graph; the assertion; the
    provenance graph with the creator the configuration had before the
    producer ran; the pubinfo graph.  None of the five blocks is empty
    or starts or ends with a line feed. *)
Theorem generate_five_blocks `{PyRepr} `{NanopubGenerator.AssertionProducer}
    (timestamp : string) (self : NanopubGenerator.t) (h : store)
    (assertion : string) (self' : NanopubGenerator.t) (h' : store) :
  NanopubGenerator.generate_assertion self h = Ok (assertion, self', h') ->
  block_edges_ok assertion = true ->
  is_part_of_usable
    (deref h' (entry (NanopubGenerator.config self) "is_part_of" SNone))
  = true ->
  Str.startswith (NanopubGenerator.sub_prefix self') nl = false ->
  exists entries prefixes head provenance pubinfo,
    NanopubGenerator.generate timestamp self h
    = Ok (prefixes +:+ nl +:+ nl +:+ head +:+ nl +:+ nl +:+ assertion
            +:+ nl +:+ nl +:+ provenance +:+ nl +:+ nl +:+ pubinfo +:+ nl)
    /\ prefixes
       = Str.join nl
           ([ "@prefix this: <" +:+ NanopubGenerator.nanopub_uri self'
                +:+ "> .";
              "@prefix " +:+ NanopubGenerator.sub_prefix self' +:+ ": <"
                +:+ (NanopubGenerator.nanopub_uri self' +:+ "/") +:+ "> ." ]
              ++ map prefix_entry_line entries)
    /\ StronglySorted
         (fun e1 e2 => String.ltb (fst e1) (fst e2) = true) entries
    /\ (forall p u,
          In (p, u) entries
          <-> PREFIXES !! p = Some u
              /\ p ∈ NanopubGenerator.used_prefixes self')
    /\ head
       = NanopubGenerator.sub_prefix self' +:+ ":Head {" +:+ nl
           +:+ "  this: a np:Nanopublication ;" +:+ nl
           +:+ "    np:hasAssertion " +:+ NanopubGenerator.sub_prefix self'
           +:+ ":assertion ;" +:+ nl
           +:+ "    np:hasProvenance " +:+ NanopubGenerator.sub_prefix self'
           +:+ ":provenance ;" +:+ nl
           +:+ "    np:hasPublicationInfo " +:+ NanopubGenerator.sub_prefix self'
           +:+ ":pubinfo ." +:+ nl
           +:+ "}"
    /\ provenance
       = NanopubGenerator.sub_prefix self' +:+ ":provenance {" +:+ nl
           +:+ "  " +:+ NanopubGenerator.sub_prefix self'
           +:+ ":assertion prov:wasAttributedTo orcid:"
           +:+ py_str
                 (deref h'
                    (entry (NanopubGenerator.config self) "creator_orcid"
                       (SStr "0000-0000-0000-0000")))
           +:+ " ." +:+ nl
           +:+ "}"
    /\ pubinfo_lines timestamp (generate_args self self' h')
       = Ok (pubinfo_layout timestamp (generate_args self self' h'))
    /\ pubinfo
       = Str.join nl (pubinfo_layout timestamp (generate_args self self' h'))
    /\ Forall (fun block => block_edges_ok block = true)
         [prefixes; head; assertion; provenance; pubinfo].
Proof.
  intros Hext Hedges Husable Hsp.
  destruct (prefixes_block_entries self') as (entries & Hprefixes & Hsorted & Hin).
  pose proof (pubinfo_lines_layout timestamp (generate_args self self' h')
                Husable) as Hlines.
  assert (Hpub : generate_pubinfo_graph timestamp (generate_args self self' h')
                 = Ok (Str.join nl
                         (pubinfo_layout timestamp
                            (generate_args self self' h')))).
  { unfold generate_pubinfo_graph. now rewrite Hlines. }
  exists entries. eexists _, _, _, _.
  split; [| split; [reflexivity | split; [exact Hsorted | split; [exact Hin |
    split; [reflexivity | split; [reflexivity | split; [exact Hlines |
    split; [reflexivity |]]]]]]]].
  - rewrite (generate_returns timestamp self h assertion self' h' _ Hext Hpub).
    rewrite Hprefixes. reflexivity.
  - forall_list.
    + rewrite <- Hprefixes. apply prefixes_block_edges.
    + now apply head_block_edges.
    + exact Hedges.
    + now apply provenance_block_edges.
    + now apply pubinfo_block_edges.
Qed.

(** C10 as worded fails: an extension may set [PROVENANCE_TEMPLATE] and
    [PUBINFO_TEMPLATES] on the instance.  With the producer that clears
    both, [generate] returns a document whose pubinfo graph has neither
    template triple. *)
Lemma fixed_templates_not_as_claimed :
  ~ fixed_templates_as_claimed (H := opaque_repr)
      (H0 := template_clearing_producer)
      "2024-01-01T00:00:00.000Z" example_cells
      "https://w3id.org/np/RAexample" no_objects.
Proof.
  intros Hclaim.
  assert (Hext : exists self',
             NanopubGenerator.generate_assertion
               (AssertionProducer := template_clearing_producer)
               (NanopubGenerator.init example_cells
                  "https://w3id.org/np/RAexample") no_objects
             = Ok (one_triple_block, self', no_objects))
    by (eexists; reflexivity).
  destruct Hext as [self' Hext].
  assert (Hpub : exists pubinfo,
             generate_pubinfo_graph (H := opaque_repr)
               "2024-01-01T00:00:00.000Z"
               (generate_args
                  (NanopubGenerator.init example_cells
                     "https://w3id.org/np/RAexample") self' no_objects)
             = Ok pubinfo).
  { injection Hext as <-. eexists. vm_compute. reflexivity. }
  destruct Hpub as [pubinfo Hpub].
  destruct (Hclaim one_triple_block self' no_objects _ Hext
              (generate_returns (H := opaque_repr)
                 (H0 := template_clearing_producer) _ _ _ _ _ _ _ Hext Hpub))
    as (lines & Hlines & Hprov & _).
  injection Hext as <-.
  vm_compute in Hlines. injection Hlines as <-.
  apply List.Exists_exists in Hprov. destruct Hprov as (l & Hl & Hsw).
  repeat (destruct Hl as [<- | Hl]; [vm_compute in Hsw; discriminate Hsw |]).
  destruct Hl.
Qed.

(** C10 (as amended). When the generator the producer leaves still has
    the class defaults as its [PROVENANCE_TEMPLATE] and
    [PUBINFO_TEMPLATES], and [generate] returns, the pubinfo graph is
    built with them: the builder's list of lines ends with the label
    line, which keeps its semicolon, the
    [nt:wasCreatedFromProvenanceTemplate] triple with the default
    provenance template, the [nt:wasCreatedFromPubinfoTemplate] list of
    the two default pubinfo templates, which ends the statement unless a
    custom template follows, the custom template triple if there is one,
    and the closing brace.  The label line is never the last
    predicate. *)
Theorem generate_uses_fixed_templates `{PyRepr}
    `{NanopubGenerator.AssertionProducer}
    (timestamp : string) (self : NanopubGenerator.t) (h : store)
    (assertion : string) (self' : NanopubGenerator.t) (h' : store) :
  NanopubGenerator.generate_assertion self h = Ok (assertion, self', h') ->
  NanopubGenerator.attr_PROVENANCE_TEMPLATE self'
  = Some NanopubGenerator.PROVENANCE_TEMPLATE ->
  NanopubGenerator.attr_PUBINFO_TEMPLATES self'
  = Some NanopubGenerator.PUBINFO_TEMPLATES ->
  is_part_of_usable
    (deref h' (entry (NanopubGenerator.config self) "is_part_of" SNone))
  = true ->
  exists before front lines,
    NanopubGenerator.generate timestamp self h
    = Ok (before +:+ Str.join nl lines +:+ nl)
    /\ pubinfo_lines timestamp (generate_args self self' h') = Ok lines
    /\ lines
       = front
           ++ [ "    rdfs:label "
                  +:+ make_literal
                        (deref h'
                           (entry (NanopubGenerator.config self') "label"
                              (SStr "Nanopublication")))
                        None None
                  +:+ " ;";
                "    nt:wasCreatedFromProvenanceTemplate <"
                  +:+ NanopubGenerator.PROVENANCE_TEMPLATE +:+ "> ;";
                "    nt:wasCreatedFromPubinfoTemplate "
                  +:+ "<https://w3id.org/np/RA0J4vUn_dekg-U1kK3AOEt02p9mT2WO03uGxLDec1jLw>,"
                  +:+ nl
                  +:+ "      <https://w3id.org/np/RAukAcWHRDlkqxk7H2XNSegc1WnHI569INvNr-xdptDGI>"
                  +:+ (if truthy
                            (deref h'
                               (entry (NanopubGenerator.config self)
                                  "template_uri" SNone))
                       then " ;" else " .") ]
           ++ (if truthy
                    (deref h'
                       (entry (NanopubGenerator.config self)
                          "template_uri" SNone))
               then [ "    nt:wasCreatedFromTemplate "
                        +:+ ("<"
                               +:+ py_str
                                     (deref h'
                                        (entry (NanopubGenerator.config self)
                                           "template_uri" SNone))
                               +:+ ">")
                        +:+ " ." ]
               else [])
           ++ ["}"].
Proof.
  intros Hext Hprov Hpubt Husable.
  destruct (generate_layout timestamp self h assertion self' h' Hext Husable)
    as (Hlines & before & Hdoc).
  exists before,
    ([sub_prefix (generate_args self self' h') +:+ ":pubinfo {"]
       ++ label_section (generate_args self self' h')
       ++ part_of_label_section (generate_args self self' h')
       ++ [creator_line (generate_args self self' h'); EmptyString]
       ++ [created_line timestamp; creator_ref_line (generate_args self self' h');
           license_line]
       ++ optional_line (truthy_list (nanopub_types (generate_args self self' h')))
            (types_line (generate_args self self' h'))
       ++ optional_line (truthy_str (introduces_uri (generate_args self self' h')))
            (introduces_line (generate_args self self' h'))
       ++ optional_line (truthy (supersedes (generate_args self self' h')))
            (supersedes_line (generate_args self self' h'))
       ++ part_of_predicate (generate_args self self' h')
       ++ [created_at_line]),
    (pubinfo_layout timestamp (generate_args self self' h')).
  split; [exact Hdoc |]. split; [exact Hlines |].
  unfold pubinfo_layout. rewrite <- !app_assoc. do 10 f_equal.
  unfold closing_lines, tail_bodies, provenance_template_body,
    pubinfo_template_body.
  change (provenance_template_uri (generate_args self self' h'))
    with (NanopubGenerator.attr_PROVENANCE_TEMPLATE self').
  change (pubinfo_template_uris (generate_args self self' h'))
    with (NanopubGenerator.attr_PUBINFO_TEMPLATES self').
  rewrite Hprov, Hpubt.
  change (template_uri (generate_args self self' h'))
    with (deref h'
            (entry (NanopubGenerator.config self) "template_uri" SNone)).
  destruct (truthy
              (deref h'
                 (entry (NanopubGenerator.config self) "template_uri" SNone)));
    reflexivity.
Qed.

(** X19. A failure of the assertion producer is the failure of
    [generate]: the same exception comes out and no document is
    returned.  In particular [generate] on the base class, whose
    [generate_assertion] is not implemented, raises
    [NotImplementedError] for every configuration. *)
Theorem generate_propagates_producer_error `{PyRepr} (timestamp : string) :
  (forall (producer : NanopubGenerator.AssertionProducer)
          (self : NanopubGenerator.t) (h : store) (e : exn),
      NanopubGenerator.generate_assertion self h = Raise e ->
      NanopubGenerator.generate timestamp self h = Raise e)
  /\ (forall (self : NanopubGenerator.t) (h : store),
        NanopubGenerator.generate (H0 := base_producer) timestamp self h
        = Raise NotImplementedError).
Proof.
  split.
  - intros producer self h e. apply generate_producer_raises.
  - intros self h. now apply (generate_producer_raises (H0 := base_producer)).
Qed.

(** X20. [generate] returns a document exactly when the assertion
    producer returns and the [is_part_of] entry that the configuration
    had before the producer ran holds, after the producer has run, a
    value the pubinfo builder accepts; in every other case it raises and
    returns nothing.  The entry is read before the producer runs and its
    content is used afterwards: a record the producer changes in place is
    seen as changed, a record the producer replaces in the configuration
    is not seen. *)
Theorem generate_returns_iff `{PyRepr} `{NanopubGenerator.AssertionProducer}
    (timestamp : string) (self : NanopubGenerator.t) (h : store) :
  (exists document, NanopubGenerator.generate timestamp self h = Ok document)
  <-> exists assertion self' h',
        NanopubGenerator.generate_assertion self h = Ok (assertion, self', h')
        /\ is_part_of_usable
             (deref h'
                (entry (NanopubGenerator.config self) "is_part_of" SNone))
           = true.
Proof.
  split.
  - intros [document Hdoc].
    destruct (NanopubGenerator.generate_assertion self h)
      as [[[assertion self'] h']|e] eqn:Hext.
    + exists assertion, self', h'. split; [reflexivity |].
      destruct (is_part_of_usable
                  (deref h'
                     (entry (NanopubGenerator.config self) "is_part_of" SNone)))
        eqn:Hu; [reflexivity |].
      destruct (pubinfo_raises_unusable timestamp
                  (generate_args self self' h') Hu) as [e He].
      rewrite (generate_pubinfo_raises timestamp self h assertion self' h' e
                 Hext He) in Hdoc.
      discriminate.
    + rewrite (generate_producer_raises timestamp self h e Hext) in Hdoc.
      discriminate.
  - intros (assertion & self' & h' & Hext & Hu).
    destruct (generate_layout timestamp self h assertion self' h' Hext Hu)
      as (_ & front & Hdoc).
    eauto.
Qed.

Lemma label_line_closing `{PyRepr} (a : PubinfoArgs) :
  In (label_body a
        +:+ (if truthy (template_uri a)
                || truthy_str (provenance_template_uri a)
                || truthy_list (pubinfo_template_uris a)
             then " ;" else " ."))
    (closing_lines a).
Proof.
  unfold closing_lines, tail_bodies.
  destruct (truthy (template_uri a)),
    (truthy_str (provenance_template_uri a)),
    (truthy_list (pubinfo_template_uris a)); left; reflexivity.
Qed.

(** X21. [generate] reads the creator from the configuration as it was
    before the assertion producer ran, and the label from the
    configuration as the producer left it: the builder's list of lines
    holds the creator-name triple of the earlier configuration (with the
    defaults of an absent ORCID or name) and the label line of the later
    one (with the default label when it has none).  The label line keeps
    its semicolon when a template reference follows it, and ends the
    statement otherwise. *)
Theorem generate_label_after_creator_before `{PyRepr}
    `{NanopubGenerator.AssertionProducer}
    (timestamp : string) (self : NanopubGenerator.t) (h : store)
    (assertion : string) (self' : NanopubGenerator.t) (h' : store) :
  NanopubGenerator.generate_assertion self h = Ok (assertion, self', h') ->
  is_part_of_usable
    (deref h' (entry (NanopubGenerator.config self) "is_part_of" SNone))
  = true ->
  exists front lines,
    NanopubGenerator.generate timestamp self h
    = Ok (front +:+ Str.join nl lines +:+ nl)
    /\ pubinfo_lines timestamp (generate_args self self' h') = Ok lines
    /\ In ("  orcid:"
             +:+ py_str
                   (deref h'
                      (default (Imm (SStr "0000-0000-0000-0000"))
                         (NanopubGenerator.config self !! "creator_orcid")))
             +:+ " foaf:name "
             +:+ make_literal
                   (deref h'
                      (default (Imm (SStr "Unknown"))
                         (NanopubGenerator.config self !! "creator_name")))
                   None None
             +:+ " .") lines
    /\ In ("    rdfs:label "
             +:+ make_literal
                   (deref h'
                      (default (Imm (SStr "Nanopublication"))
                         (NanopubGenerator.config self' !! "label")))
                   None None
             +:+ (if truthy
                       (deref h'
                          (default (Imm SNone)
                             (NanopubGenerator.config self !! "template_uri")))
                     || truthy_str
                          (NanopubGenerator.attr_PROVENANCE_TEMPLATE self')
                     || truthy_list
                          (NanopubGenerator.attr_PUBINFO_TEMPLATES self')
                  then " ;" else " .")) lines.
Proof.
  intros Hext Hu.
  destruct (generate_layout timestamp self h assertion self' h' Hext Hu)
    as (Hlines & front & Hdoc).
  exists front, (pubinfo_layout timestamp (generate_args self self' h')).
  split; [exact Hdoc |]. split; [exact Hlines |].
  unfold pubinfo_layout. split.
  - do 3 (apply in_or_app; right). apply in_or_app. left. left. reflexivity.
  - do 10 (apply in_or_app; right). apply in_or_app. left.
    exact (label_line_closing (generate_args self self' h')).
Qed.

(** X22. What the producer records with [add_nanopub_type] and
    [set_introduces] reaches the document: when the generator it leaves
    has types, the builder's list of lines has the [npx:hasNanopubType]
    line with all of them in order, and when it has a non-empty
    introduced URI, the list has the [npx:introduces] line for it. *)
Theorem generate_emits_producer_metadata `{PyRepr}
    `{NanopubGenerator.AssertionProducer}
    (timestamp : string) (self : NanopubGenerator.t) (h : store)
    (assertion : string) (self' : NanopubGenerator.t) (h' : store) :
  NanopubGenerator.generate_assertion self h = Ok (assertion, self', h') ->
  is_part_of_usable
    (deref h' (entry (NanopubGenerator.config self) "is_part_of" SNone))
  = true ->
  exists front lines,
    NanopubGenerator.generate timestamp self h
    = Ok (front +:+ Str.join nl lines +:+ nl)
    /\ pubinfo_lines timestamp (generate_args self self' h') = Ok lines
    /\ (NanopubGenerator.nanopub_types self' <> [] ->
        In ("    npx:hasNanopubType "
              +:+ Str.join ", " (map angle (NanopubGenerator.nanopub_types self'))
              +:+ " ;") lines)
    /\ (forall uri,
          NanopubGenerator.introduces_uri self' = Some uri ->
          uri <> EmptyString ->
          In ("    npx:introduces <" +:+ uri +:+ "> ;") lines).
Proof.
  intros Hext Hu.
  destruct (generate_layout timestamp self h assertion self' h' Hext Hu)
    as (Hlines & front & Hdoc).
  exists front, (pubinfo_layout timestamp (generate_args self self' h')).
  split; [exact Hdoc |]. split; [exact Hlines |].
  unfold pubinfo_layout. split.
  - intros Hne. do 5 (apply in_or_app; right). apply in_or_app. left.
    unfold types_line.
    change (nanopub_types (generate_args self self' h'))
      with (match NanopubGenerator.nanopub_types self' with
            | [] => None
            | ts => Some ts
            end).
    destruct (NanopubGenerator.nanopub_types self') as [|t ts]; [congruence |].
    left. reflexivity.
  - intros uri Hi Hne. do 6 (apply in_or_app; right). apply in_or_app. left.
    unfold introduces_line.
    change (introduces_uri (generate_args self self' h'))
      with (NanopubGenerator.introduces_uri self').
    rewrite Hi. destruct uri as [|c uri]; [congruence |].
    left. cbn [text_of default from_option id angle]. simpl.
    now rewrite !app_assoc_s.
Qed.

(** ** The placeholder URI *)

Lemma take_all_chars (p : ascii -> bool) (n : nat) (s : string) :
  all_chars p s = true -> all_chars p (Str.take n s) = true.
Proof.
  unfold Str.take. revert s. induction n as [|n IH]; intros s Hs.
  - now destruct s.
  - destruct s as [|c s]; [reflexivity |]. cbn in *.
    apply andb_true_iff in Hs. destruct Hs as [Hc Hs].
    rewrite Hc. now apply IH.
Qed.

Lemma take_short (n : nat) (s : string) :
  String.length s <= n -> Str.take n s = s.
Proof.
  unfold Str.take. revert s. induction n as [|n IH]; intros s Hs.
  - destruct s; [reflexivity | cbn in Hs; lia].
  - destruct s as [|c s]; [reflexivity |]. cbn in *.
    f_equal. apply IH. lia.
Qed.

(** X23. Given the digest of the random UUID text, the placeholder URI is
    the fixed prefix followed by the first 43 characters of the digest:
    with a digest of lower-case hexadecimal digits that is at least 43
    long, as SHA-256 gives, the URI is 65 characters long and its last 43
    are hexadecimal digits; a shorter digest would be taken whole. *)
Theorem generate_nanopub_uri_hex (sha256_hexdigest : string -> string)
    (uuid4 : string) :
  (43 <= String.length (sha256_hexdigest uuid4) ->
   all_chars is_hex (sha256_hexdigest uuid4) = true ->
   exists unique_id,
     generate_nanopub_uri sha256_hexdigest uuid4
     = "https://w3id.org/np/RA" +:+ unique_id
     /\ String.length unique_id = 43
     /\ all_chars is_hex unique_id = true
     /\ String.length (generate_nanopub_uri sha256_hexdigest uuid4) = 65)
  /\ (String.length (sha256_hexdigest uuid4) <= 43 ->
      generate_nanopub_uri sha256_hexdigest uuid4
      = "https://w3id.org/np/RA" +:+ sha256_hexdigest uuid4).
Proof.
  split.
  - intros Hlen Hhex. exists (Str.take 43 (sha256_hexdigest uuid4)).
    split; [reflexivity |]. split; [now apply take_length |].
    split; [now apply take_all_chars |].
    unfold generate_nanopub_uri. cbv zeta.
    rewrite length_app_s, take_length by exact Hlen. reflexivity.
  - intros Hlen. unfold generate_nanopub_uri. cbv zeta.
    now rewrite take_short.
Qed.

(** ** Literals and line breaks *)

(** X24. A literal built by [make_literal] holds a line feed or a
    carriage return only if the datatype or language argument brings one:
    whatever the value, the quoted part has none, so a literal without
    datatype and language is always a single line. *)
Theorem make_literal_single_line `{PyRepr} (value : pyval)
    (datatype lang : option string) :
  Str.mem LF (make_literal value datatype lang)
  = Str.mem LF (literal_suffix datatype lang)
  /\ Str.mem CR (make_literal value datatype lang)
     = Str.mem CR (literal_suffix datatype lang)
  /\ Str.mem LF (make_literal value None None) = false
  /\ Str.mem CR (make_literal value None None) = false.
Proof.
  rewrite !make_literal_shape, !mem_app.
  rewrite !(no_raw_line_break (py_str value) LF) by now left.
  rewrite !(no_raw_line_break (py_str value) CR) by now right.
  repeat split; reflexivity.
Qed.

(** ** These properties on concrete inputs *)

Lemma wikidata_label_last_write_wins_example :
  dict_lookup
    (NanopubGenerator.wikidata_labels
       (NanopubGenerator.add_wikidata_label
          "http://www.wikidata.org/entity/Q42" "Douglas Adams"
          (NanopubGenerator.init example_cells "https://w3id.org/np/RAexample")))
    "http://www.wikidata.org/entity/Q42"
  = Some "Douglas Adams"
  /\ forall other,
       other <> "http://www.wikidata.org/entity/Q42" ->
       dict_lookup
         (NanopubGenerator.wikidata_labels
            (NanopubGenerator.add_wikidata_label
               "http://www.wikidata.org/entity/Q42" "Douglas Adams"
               (NanopubGenerator.init example_cells
                  "https://w3id.org/np/RAexample"))) other
       = dict_lookup
           (NanopubGenerator.wikidata_labels
              (NanopubGenerator.init example_cells
                 "https://w3id.org/np/RAexample")) other.
Proof.
  apply wikidata_label_last_write_wins. vm_compute. reflexivity.
Defined.

Lemma add_prefix_ignored_example :
  NanopubGenerator.get_prefixes_block
    (NanopubGenerator.add_prefix "unknownprefix"
       (NanopubGenerator.init example_cells "https://w3id.org/np/RAexample"))
  = NanopubGenerator.get_prefixes_block
      (NanopubGenerator.init example_cells "https://w3id.org/np/RAexample").
Proof.
  apply add_prefix_ignored. left. vm_compute. reflexivity.
Defined.

Lemma known_prefix_declared_example :
  exists declarations,
    NanopubGenerator.get_prefixes_block
      (run_calls
         (NanopubGenerator.init example_cells "https://w3id.org/np/RAexample")
         [AddPrefix "schema"])
    = Str.join nl
        ([ "@prefix this: <https://w3id.org/np/RAexample> .";
           "@prefix sub: <https://w3id.org/np/RAexample/> ." ]
           ++ declarations)
    /\ declarations
       = format_prefix_lines
           (used_known
              (NanopubGenerator.used_prefixes
                 (run_calls
                    (NanopubGenerator.init example_cells
                       "https://w3id.org/np/RAexample")
                    [AddPrefix "schema"])))
    /\ In "@prefix schema: <https://schema.org/> ." declarations.
Proof.
  apply (known_prefix_declared example_cells "https://w3id.org/np/RAexample"
           [AddPrefix "schema"] "schema" "https://schema.org/").
  - vm_compute. reflexivity.
  - right. left. reflexivity.
Defined.

Lemma pubinfo_graph_layout_example :
  generate_pubinfo_graph (H := opaque_repr) "2024-01-01T00:00:00.000Z"
    custom_template_args
  = Ok (Str.join nl
          ([sub_prefix custom_template_args +:+ ":pubinfo {"]
             ++ label_section (H := opaque_repr) custom_template_args
             ++ part_of_label_section (H := opaque_repr) custom_template_args
             ++ [creator_line (H := opaque_repr) custom_template_args; EmptyString]
             ++ [created_line "2024-01-01T00:00:00.000Z";
                 creator_ref_line (H := opaque_repr) custom_template_args;
                 license_line]
             ++ optional_line (truthy_list (nanopub_types custom_template_args))
                  (types_line custom_template_args)
             ++ optional_line (truthy_str (introduces_uri custom_template_args))
                  (introduces_line custom_template_args)
             ++ optional_line (truthy (supersedes custom_template_args))
                  (supersedes_line (H := opaque_repr) custom_template_args)
             ++ part_of_predicate (H := opaque_repr) custom_template_args
             ++ [created_at_line]
             ++ closing_lines (H := opaque_repr) custom_template_args
             ++ ["}"])).
Proof.
  apply (pubinfo_graph_layout (H := opaque_repr)). vm_compute. reflexivity.
Defined.

Lemma pubinfo_graph_errors_example :
  generate_pubinfo_graph (H := opaque_repr) "2024-01-01T00:00:00.000Z"
    part_of_label_only_args
  = Raise (KeyError "uri").
Proof.
  destruct (pubinfo_graph_errors (H := opaque_repr) "2024-01-01T00:00:00.000Z"
              part_of_label_only_args) as (_ & Hkey & _).
  apply (Hkey (<["label" := PStr "A review"]> ∅)); vm_compute; reflexivity.
Defined.

Lemma wikidata_triples_in_order_example :
  exists rest,
    generate_pubinfo_graph (H := opaque_repr) "2024-01-01T00:00:00.000Z"
      custom_template_args
    = Ok (Str.join nl
            ((sub_prefix custom_template_args +:+ ":pubinfo {")
               :: map (fun e =>
                         "  <" +:+ fst e +:+ "> nt:hasLabelFromApi "
                           +:+ make_literal (H := opaque_repr) (PStr (snd e))
                                 None None +:+ " .")
                    [("http://www.wikidata.org/entity/Q42", "Douglas Adams")]
               ++ EmptyString :: rest)).
Proof.
  apply (wikidata_triples_in_order (H := opaque_repr)
           "2024-01-01T00:00:00.000Z" custom_template_args
           ("http://www.wikidata.org/entity/Q42", "Douglas Adams") []).
  - reflexivity.
  - vm_compute. reflexivity.
Defined.

Lemma part_of_without_label_example :
  exists before after,
    generate_pubinfo_graph (H := opaque_repr) "2024-01-01T00:00:00.000Z"
      part_of_uri_only_args
    = Ok (Str.join nl
            (([sub_prefix part_of_uri_only_args +:+ ":pubinfo {"]
                ++ label_section (H := opaque_repr) part_of_uri_only_args
                ++ [creator_line (H := opaque_repr) part_of_uri_only_args;
                    EmptyString])
               ++ (created_line "2024-01-01T00:00:00.000Z" :: before)
               ++ [is_part_of_line (H := opaque_repr)
                     (PStr "https://example.org/review")]
               ++ after)).
Proof.
  apply (part_of_without_label (H := opaque_repr)
           "2024-01-01T00:00:00.000Z" part_of_uri_only_args
           (<["uri" := PStr "https://example.org/review"]> ∅)
           (PStr "https://example.org/review"));
    vm_compute; reflexivity.
Defined.

Lemma generate_five_blocks_example :
  exists entries prefixes head provenance pubinfo,
    NanopubGenerator.generate (H := opaque_repr) (H0 := quiet_producer)
      "2024-01-01T00:00:00.000Z"
      (NanopubGenerator.init example_cells "https://w3id.org/np/RAexample")
      no_objects
    = Ok (prefixes +:+ nl +:+ nl +:+ head +:+ nl +:+ nl +:+ one_triple_block
            +:+ nl +:+ nl +:+ provenance +:+ nl +:+ nl +:+ pubinfo +:+ nl)
    /\ prefixes
       = Str.join nl
           ([ "@prefix this: <https://w3id.org/np/RAexample> .";
              "@prefix sub: <https://w3id.org/np/RAexample/> ." ]
              ++ map prefix_entry_line entries)
    /\ StronglySorted
         (fun e1 e2 => String.ltb (fst e1) (fst e2) = true) entries
    /\ (forall p u,
          In (p, u) entries
          <-> PREFIXES !! p = Some u
              /\ p ∈ NanopubGenerator.used_prefixes
                       (NanopubGenerator.init example_cells
                          "https://w3id.org/np/RAexample"))
    /\ head
       = "sub:Head {" +:+ nl
           +:+ "  this: a np:Nanopublication ;" +:+ nl
           +:+ "    np:hasAssertion sub:assertion ;" +:+ nl
           +:+ "    np:hasProvenance sub:provenance ;" +:+ nl
           +:+ "    np:hasPublicationInfo sub:pubinfo ." +:+ nl
           +:+ "}"
    /\ provenance
       = "sub:provenance {" +:+ nl
           +:+ "  sub:assertion prov:wasAttributedTo orcid:0000-0001-2345-6789 ."
           +:+ nl +:+ "}"
    /\ pubinfo_lines (H := opaque_repr) "2024-01-01T00:00:00.000Z"
         (generate_args
            (NanopubGenerator.init example_cells "https://w3id.org/np/RAexample")
            (NanopubGenerator.init example_cells "https://w3id.org/np/RAexample")
            no_objects)
       = Ok (pubinfo_layout (H := opaque_repr) "2024-01-01T00:00:00.000Z"
               (generate_args
                  (NanopubGenerator.init example_cells
                     "https://w3id.org/np/RAexample")
                  (NanopubGenerator.init example_cells
                     "https://w3id.org/np/RAexample")
                  no_objects))
    /\ pubinfo
       = Str.join nl
           (pubinfo_layout (H := opaque_repr) "2024-01-01T00:00:00.000Z"
              (generate_args
                 (NanopubGenerator.init example_cells
                    "https://w3id.org/np/RAexample")
                 (NanopubGenerator.init example_cells
                    "https://w3id.org/np/RAexample")
                 no_objects))
    /\ Forall (fun block => block_edges_ok block = true)
         [prefixes; head; one_triple_block; provenance; pubinfo].
Proof.
  apply (generate_five_blocks (H := opaque_repr) (H0 := quiet_producer)
           "2024-01-01T00:00:00.000Z"
           (NanopubGenerator.init example_cells "https://w3id.org/np/RAexample")
           no_objects one_triple_block
           (NanopubGenerator.init example_cells "https://w3id.org/np/RAexample")
           no_objects).
  - reflexivity.
  - vm_compute. reflexivity.
  - vm_compute. reflexivity.
  - vm_compute. reflexivity.
Defined.

Lemma generate_uses_fixed_templates_example :
  exists before front lines,
    NanopubGenerator.generate (H := opaque_repr) (H0 := quiet_producer)
      "2024-01-01T00:00:00.000Z"
      (NanopubGenerator.init example_cells "https://w3id.org/np/RAexample")
      no_objects
    = Ok (before +:+ Str.join nl lines +:+ nl)
    /\ pubinfo_lines (H := opaque_repr) "2024-01-01T00:00:00.000Z"
         (generate_args
            (NanopubGenerator.init example_cells "https://w3id.org/np/RAexample")
            (NanopubGenerator.init example_cells "https://w3id.org/np/RAexample")
            no_objects)
       = Ok lines
    /\ lines
       = front
           ++ [ "    rdfs:label " +:+ dq +:+ "Test" +:+ dq +:+ " ;";
                "    nt:wasCreatedFromProvenanceTemplate <https://w3id.org/np/RA7lSq6MuK_TIC6JMSHvLtee3lpLoZDOqLJCLXevnrPoU> ;";
                "    nt:wasCreatedFromPubinfoTemplate "
                  +:+ "<https://w3id.org/np/RA0J4vUn_dekg-U1kK3AOEt02p9mT2WO03uGxLDec1jLw>,"
                  +:+ nl
                  +:+ "      <https://w3id.org/np/RAukAcWHRDlkqxk7H2XNSegc1WnHI569INvNr-xdptDGI>"
                  +:+ " ." ]
           ++ []
           ++ ["}"].
Proof.
  apply (generate_uses_fixed_templates (H := opaque_repr)
           (H0 := quiet_producer) "2024-01-01T00:00:00.000Z"
           (NanopubGenerator.init example_cells "https://w3id.org/np/RAexample")
           no_objects one_triple_block
           (NanopubGenerator.init example_cells "https://w3id.org/np/RAexample")
           no_objects).
  - reflexivity.
  - reflexivity.
  - reflexivity.
  - vm_compute. reflexivity.
Defined.

(** The producer that adds the missing uri to the [is_part_of] record in
    place makes [generate] return on a configuration on which it raises
    when the record is left alone. *)
Lemma generate_returns_iff_example :
  exists document,
    NanopubGenerator.generate (H := opaque_repr) (H0 := uri_adding_producer)
      "2024-01-01T00:00:00.000Z"
      (NanopubGenerator.init part_of_cells "https://w3id.org/np/RAexample")
      label_only_store
    = Ok document.
Proof.
  apply (generate_returns_iff (H := opaque_repr) (H0 := uri_adding_producer)).
  eexists _, _, _. split; [reflexivity |]. vm_compute. reflexivity.
Defined.

(** The other direction: the record has a uri when [generate] reads it,
    the producer removes the uri in place, and [generate] raises. *)
Lemma generate_raises_after_pop :
  NanopubGenerator.generate (H := opaque_repr) (H0 := uri_popping_producer)
    "2024-01-01T00:00:00.000Z"
    (NanopubGenerator.init part_of_cells "https://w3id.org/np/RAexample")
    uri_and_label_store
  = Raise (KeyError "uri").
Proof.
  apply (generate_pubinfo_raises (H := opaque_repr)
           (H0 := uri_popping_producer) _ _ _ one_triple_block
           (NanopubGenerator.init part_of_cells "https://w3id.org/np/RAexample")
           (fun l =>
              match l with
              | 0 =>
                  match uri_and_label_store 0 with
                  | PDict d => PDict (delete "uri" d)
                  | v => v
                  end
              | _ => uri_and_label_store l
              end)).
  - reflexivity.
  - vm_compute. reflexivity.
Qed.

(** The producer sets both the label and the creator name: the document
    has the label it set and the creator name of the configuration as it
    was before. *)
Lemma generate_label_after_creator_before_example :
  exists front lines,
    NanopubGenerator.generate (H := opaque_repr) (H0 := relabeling_producer)
      "2024-01-01T00:00:00.000Z"
      (NanopubGenerator.init example_cells "https://w3id.org/np/RAexample")
      no_objects
    = Ok (front +:+ Str.join nl lines +:+ nl)
    /\ pubinfo_lines (H := opaque_repr) "2024-01-01T00:00:00.000Z"
         (generate_args
            (NanopubGenerator.init example_cells "https://w3id.org/np/RAexample")
            (relabeled
               (NanopubGenerator.init example_cells
                  "https://w3id.org/np/RAexample"))
            no_objects)
       = Ok lines
    /\ In ("  orcid:0000-0001-2345-6789 foaf:name "
             +:+ dq +:+ "A. Researcher" +:+ dq +:+ " .") lines
    /\ In ("    rdfs:label " +:+ dq +:+ "Set by the producer" +:+ dq +:+ " ;")
         lines.
Proof.
  apply (generate_label_after_creator_before (H := opaque_repr)
           (H0 := relabeling_producer) "2024-01-01T00:00:00.000Z"
           (NanopubGenerator.init example_cells "https://w3id.org/np/RAexample")
           no_objects one_triple_block
           (relabeled
              (NanopubGenerator.init example_cells
                 "https://w3id.org/np/RAexample"))
           no_objects).
  - reflexivity.
  - vm_compute. reflexivity.
Defined.

Lemma generate_emits_producer_metadata_example :
  exists front lines,
    NanopubGenerator.generate (H := opaque_repr) (H0 := recording_producer)
      "2024-01-01T00:00:00.000Z"
      (NanopubGenerator.init example_cells "https://w3id.org/np/RAexample")
      no_objects
    = Ok (front +:+ Str.join nl lines +:+ nl)
    /\ pubinfo_lines (H := opaque_repr) "2024-01-01T00:00:00.000Z"
         (generate_args
            (NanopubGenerator.init example_cells "https://w3id.org/np/RAexample")
            (run_calls
               (NanopubGenerator.init example_cells
                  "https://w3id.org/np/RAexample")
               recording_calls)
            no_objects)
       = Ok lines
    /\ In "    npx:hasNanopubType <https://example.org/Type> ;" lines
    /\ In "    npx:introduces <https://example.org/thing> ;" lines.
Proof.
  destruct (generate_emits_producer_metadata (H := opaque_repr)
              (H0 := recording_producer) "2024-01-01T00:00:00.000Z"
              (NanopubGenerator.init example_cells
                 "https://w3id.org/np/RAexample")
              no_objects one_triple_block
              (run_calls
                 (NanopubGenerator.init example_cells
                    "https://w3id.org/np/RAexample")
                 recording_calls)
              no_objects)
    as (front & lines & Hdoc & Hlines & Htypes & Hintro).
  - reflexivity.
  - vm_compute. reflexivity.
  - exists front, lines. split; [exact Hdoc |]. split; [exact Hlines |]. split.
    + apply Htypes. discriminate.
    + apply (Hintro "https://example.org/thing"); [reflexivity | discriminate].
Defined.

Lemma generate_nanopub_uri_hex_example :
  exists unique_id,
    generate_nanopub_uri zero_digest "123e4567-e89b-42d3-a456-426614174000"
    = "https://w3id.org/np/RA" +:+ unique_id
    /\ String.length unique_id = 43
    /\ all_chars is_hex unique_id = true
    /\ String.length
         (generate_nanopub_uri zero_digest "123e4567-e89b-42d3-a456-426614174000")
       = 65.
Proof.
  destruct (generate_nanopub_uri_hex zero_digest
              "123e4567-e89b-42d3-a456-426614174000") as [Hlong _].
  apply Hlong.
  - vm_compute. lia.
  - vm_compute. reflexivity.
Defined.
